(** * openview / flask_backend: the chat and recommendation handlers

    A shallow embedding of [flask_backend/app copy.py]: the session-scoped
    conversation history ([get_history], [add_message], the reset done by
    [index]), the chat handler and the recommendation handler with its
    prompt, together with the properties the specification states about
    them.

    Python values are modelled as data, the Flask session as a finite map,
    and the handlers as programs in a small monad that threads the session,
    propagates exceptions and records each call to the completion client. *)

From Stdlib Require Import ZArith NArith QArith List String Ascii DecimalString.
From Stdlib Require Import Floats.SpecFloat.
From stdpp Require Import base option list gmap.

Import ListNotations.
Local Open Scope N_scope.
Local Open Scope list_scope.

(** ** Python strings

    A Python [str] is a sequence of Unicode code points. *)

Definition codepoint : Type := N.
Definition pystr : Type := list codepoint.

(** Source literals are written in UTF-8; [decode_utf8] reads the bytes of
    a literal back into code points.  [need] counts the continuation bytes
    still expected and [acc] holds the bits read so far. *)
Fixpoint decode_utf8 (acc : N) (need : nat) (bs : list N) : pystr :=
  match bs with
  | [] => []
  | b :: bs' =>
      match need with
      | O =>
          if b <? 128 then b :: decode_utf8 0 0 bs'
          else if b <? 224 then decode_utf8 (b - 192) 1 bs'
          else if b <? 240 then decode_utf8 (b - 224) 2 bs'
          else decode_utf8 (b - 240) 3 bs'
      | S O => (acc * 64 + (b - 128)) :: decode_utf8 0 0 bs'
      | S n => decode_utf8 (acc * 64 + (b - 128)) n bs'
      end
  end.

Definition lit (s : string) : pystr :=
  decode_utf8 0 0 (map N_of_ascii (list_ascii_of_string s)).

(** The characters [str.strip()] removes when called without argument:
    those for which [str.isspace] holds. *)
Definition isspace (c : codepoint) : bool :=
  ((9 <=? c) && (c <=? 13)) || ((28 <=? c) && (c <=? 31)) || (c =? 32)
  || (c =? 0x85) || (c =? 0xA0) || (c =? 0x1680)
  || ((0x2000 <=? c) && (c <=? 0x200A))
  || (c =? 0x2028) || (c =? 0x2029) || (c =? 0x202F) || (c =? 0x205F)
  || (c =? 0x3000).

Fixpoint lstrip (s : pystr) : pystr :=
  match s with
  | [] => []
  | c :: s' => if isspace c then lstrip s' else s
  end.

Definition rstrip (s : pystr) : pystr := rev (lstrip (rev s)).

Definition strip (s : pystr) : pystr := rstrip (lstrip s).

(** [sep.join(parts)] *)
Fixpoint join (sep : pystr) (parts : list pystr) : pystr :=
  match parts with
  | [] => []
  | [p] => p
  | p :: rest => p ++ sep ++ join sep rest
  end.

(** [str(n)] for an [int]. *)
Definition int_str (z : Z) : pystr :=
  lit (NilZero.string_of_int (Z.to_int z)).

(** ** Python values

    The values a decoded JSON document is made of.  A [dict] keeps its
    items in insertion order. *)
#[warnings="-register-all"] Inductive pyvalue : Type :=
| PNone
| PBool (b : bool)
| PInt (z : Z)
| PFloat (f : spec_float)
| PStr (s : pystr)
| PList (items : list pyvalue)
| PDict (items : list (pystr * pyvalue)).

(** Truth value of an object, as tested by [or], [not] and [if]. *)
Definition float_is_zero (f : spec_float) : bool :=
  match f with
  | S754_zero _ => true
  | _ => false
  end.

Definition truthy (v : pyvalue) : bool :=
  match v with
  | PNone => false
  | PBool b => b
  | PInt z => negb (z =? 0)%Z
  | PFloat f => negb (float_is_zero f)
  | PStr s => match s with [] => false | _ => true end
  | PList l => match l with [] => false | _ => true end
  | PDict d => match d with [] => false | _ => true end
  end.

(** [a or b] *)
Definition py_or (a b : pyvalue) : pyvalue := if truthy a then a else b.

(** The name Python prints for the type of a value. *)
Definition type_name (v : pyvalue) : pystr :=
  match v with
  | PNone => lit "NoneType"
  | PBool _ => lit "bool"
  | PInt _ => lit "int"
  | PFloat _ => lit "float"
  | PStr _ => lit "str"
  | PList _ => lit "list"
  | PDict _ => lit "dict"
  end.

(** Lookup in the items of a [dict]. *)
Fixpoint items_get (d : list (pystr * pyvalue)) (k : pystr) : option pyvalue :=
  match d with
  | [] => None
  | (k', v) :: d' => if decide (k' = k) then Some v else items_get d' k
  end.

(** ** Turns, the session and the completion client *)

(** A turn is the dict [{"role": role, "content": content}].  The content
    is a [str], or [None] when the completion carried no text. *)
Record Turn : Type := mkTurn { role : pystr; content : option pystr }.

(** Flask's [session]: a dict-like store bound to the client's signed
    cookie.  The only key the application uses holds a list of turns. *)
Abbreviation session := (gmap pystr (list Turn)).

(** The keyword arguments of [client.chat.completions.create]. *)
Record completion_request : Type := mkRequest {
  model : pystr;
  messages : list Turn;
  temperature : Q;
  max_tokens : Z
}.

(** What the client gives back: a completion, seen through the
    [message.content] of each of its [choices], or an exception of class
    [Exception], seen through its [str(e)]. *)
Inductive gateway_outcome : Type :=
| Completed (choices : list (option pystr))
| Failed (message : pystr).

(** Exceptions raised while a handler runs. *)
Inductive exn : Type :=
| AttributeError (type attr : pystr)
| KeyError (key : pystr)
| IndexError
| APIError (message : pystr).

Inductive result (A : Type) : Type :=
| Ok (a : A)
| Raise (e : exn).
Arguments Ok {A} a.
Arguments Raise {A} e.

(** A run of a handler: it ends with a value, or it calls the completion
    client and goes on with what the client answers. *)
Inductive prog (A : Type) : Type :=
| Done (a : A)
| Call (req : completion_request) (k : gateway_outcome -> prog A).
Arguments Done {A} a.
Arguments Call {A} req k.

Fixpoint prog_bind {A B : Type} (p : prog A) (f : A -> prog B) : prog B :=
  match p with
  | Done a => f a
  | Call req k => Call req (fun o => prog_bind (k o) f)
  end.

(** Runs a program against a client. *)
Fixpoint run {A : Type} (client : completion_request -> gateway_outcome)
    (p : prog A) : A :=
  match p with
  | Done a => a
  | Call req k => run client (k (client req))
  end.

(** The requests a program sends to the client, in order. *)
Fixpoint requests {A : Type} (client : completion_request -> gateway_outcome)
    (p : prog A) : list completion_request :=
  match p with
  | Done _ => []
  | Call req k => req :: requests client (k (client req))
  end.

(** Handler code: reads and writes the session, may raise, may call the
    client.  A raised exception keeps the session as it was when raised. *)
Definition M (A : Type) : Type := session -> prog (result A * session).

#[global] Instance M_ret : MRet M := fun A a s => Done (Ok a, s).

#[global] Instance M_bind : MBind M := fun A B f m s =>
  prog_bind (m s) (fun rs =>
    match rs.1 with
    | Ok a => f a rs.2
    | Raise e => Done (Raise e, rs.2)
    end).

Definition raise {A : Type} (e : exn) : M A := fun s => Done (Raise e, s).

(** [try: body / except Exception as e: handler e] *)
Definition try_except {A : Type} (body : M A) (handler : exn -> M A) : M A :=
  fun s =>
    prog_bind (body s) (fun rs =>
      match rs.1 with
      | Ok a => Done (Ok a, rs.2)
      | Raise e => handler e rs.2
      end).

(** [key in session], [session[key]], [session[key] = value] and
    [session.pop(key, None)]. *)
Definition session_contains (key : pystr) : M bool :=
  fun s => Done (Ok (bool_decide (is_Some (s !! key))), s).

Definition session_getitem (key : pystr) : M (list Turn) :=
  fun s =>
    match s !! key with
    | Some v => Done (Ok v, s)
    | None => Done (Raise (KeyError key), s)
    end.

Definition session_setitem (key : pystr) (value : list Turn) : M unit :=
  fun s => Done (Ok tt, <[key := value]> s).

Definition session_pop (key : pystr) : M unit :=
  fun s => Done (Ok tt, delete key s).

(** [client.chat.completions.create(...)] *)
Definition create (req : completion_request) : M (list (option pystr)) :=
  fun s =>
    Call req (fun o =>
      match o with
      | Completed choices => Done (Ok choices, s)
      | Failed msg => Done (Raise (APIError msg), s)
      end).

(** [xs[0]] *)
Definition first {A : Type} (xs : list A) : M A :=
  match xs with
  | x :: _ => mret x
  | [] => raise IndexError
  end.

(** [obj.get(key, default)]: only a dict has the method. *)
Definition py_get (obj : pyvalue) (key : pystr) (dflt : pyvalue) : M pyvalue :=
  match obj with
  | PDict d => mret (default dflt (items_get d key))
  | _ => raise (AttributeError (type_name obj) (lit "get"))
  end.

(** [obj.strip()]: only a [str] has the method. *)
Definition py_strip (obj : pyvalue) : M pystr :=
  match obj with
  | PStr s => mret (strip s)
  | _ => raise (AttributeError (type_name obj) (lit "strip"))
  end.

(** An optional text as a Python value. *)
Definition text_value (o : option pystr) : pyvalue :=
  match o with
  | Some s => PStr s
  | None => PNone
  end.

(** ** The request and the response *)

(** The body of a request as [request.get_json] sees it. *)
Inductive payload : Type :=
| Absent
| NotJson (raw : pystr)
| Json (v : pyvalue).

Record request : Type := mkHttp {
  args : list (pystr * pystr);
  body : payload
}.

(** [request.get_json(silent=True)]: the decoded document, and [None]
    where there is no body or it does not parse as JSON. *)
Definition get_json_silent (req : request) : pyvalue :=
  match body req with
  | Json v => v
  | Absent | NotJson _ => PNone
  end.

(** [request.args.get(key)]: the first value given for the key. *)
Fixpoint args_get (a : list (pystr * pystr)) (key : pystr) : option pystr :=
  match a with
  | [] => None
  | (k, v) :: a' => if decide (k = key) then Some v else args_get a' key
  end.

(** What a view function returns: [jsonify(body), status] or a rendered
    template. *)
Inductive response : Type :=
| JsonResponse (status : Z) (json : pyvalue)
| Html (template : pystr).

(** ** The application *)

Section App.

(** The process environment read at start-up, and the two renderings of
    the Python runtime that are left abstract: [repr] of a [float] and
    [repr] of a [str]. *)
Variable environ : gmap pystr pystr.
Variable float_repr : spec_float -> pystr.
Variable str_repr : pystr -> pystr.

(** [os.getenv(key, default)] *)
Definition getenv (key dflt : pystr) : pystr := default dflt (environ !! key).

Definition MODEL : pystr := getenv (lit "MODEL") (lit "gpt-4o-mini").

Definition SYSTEM_PROMPT : pystr :=
  lit "Eres un asistente útil y claro. Responde en español con precisión y brevedad.".

(** [repr(v)] and [str(v)]; an f-string field [{v}] renders [str(v)]. *)
Fixpoint py_repr (v : pyvalue) : pystr :=
  match v with
  | PNone => lit "None"
  | PBool true => lit "True"
  | PBool false => lit "False"
  | PInt z => int_str z
  | PFloat f => float_repr f
  | PStr s => str_repr s
  | PList l => lit "[" ++ join (lit ", ") (map py_repr l) ++ lit "]"
  | PDict d =>
      lit "{"
      ++ join (lit ", ")
           (map (fun kv => str_repr kv.1 ++ lit ": " ++ py_repr kv.2) d)
      ++ lit "}"
  end.

Definition py_str (v : pyvalue) : pystr :=
  match v with
  | PStr s => s
  | _ => py_repr v
  end.

(** [str(e)] *)
Definition exn_str (e : exn) : pystr :=
  match e with
  | AttributeError ty attr =>
      lit "'" ++ ty ++ lit "' object has no attribute '" ++ attr ++ lit "'"
  | KeyError key => str_repr key
  | IndexError => lit "list index out of range"
  | APIError msg => msg
  end.

Definition system_turn : Turn := mkTurn (lit "system") (Some SYSTEM_PROMPT).

(** *** History helpers *)

Definition get_history : M (list Turn) :=
  present ← session_contains (lit "history");
  (if negb present
   then session_setitem (lit "history") [system_turn]
   else mret tt);;
  session_getitem (lit "history").

(** [history] is the list held by the session; [append] extends it and
    the assignment stores it under the key again. *)
Definition add_message (role : pystr) (content : option pystr) : M unit :=
  history ← get_history;
  let history := history ++ [mkTurn role content] in
  session_setitem (lit "history") history.

(** *** [GET /] *)

Definition index (req : request) : M response :=
  (if decide (args_get (args req) (lit "new") = Some (lit "1"))
   then session_pop (lit "history")
   else mret tt);;
  mret (Html (lit "index.html")).

(** [request.get_json(silent=True) or {}], the first line of both JSON
    handlers. *)
Definition request_data (req : request) : pyvalue :=
  py_or (get_json_silent req) (PDict []).

(** *** [POST /api/chat] *)

Definition chat (req : request) : M response :=
  let data := request_data req in
  message ← py_get data (lit "message") (PStr (lit ""));
  user_msg ← py_strip message;
  if negb (truthy (PStr user_msg))
  then mret (JsonResponse 400
               (PDict [(lit "ok", PBool false);
                       (lit "error", PStr (lit "Mensaje vacío"))]))
  else
    add_message (lit "user") (Some user_msg);;
    outcome ← try_except
      (history ← get_history;
       choices ← create {| model := MODEL; messages := history;
                           temperature := 0.7; max_tokens := 400 |};
       choice ← first choices;
       mret (inl choice))
      (fun e =>
         mret (inr (JsonResponse 500
                      (PDict [(lit "ok", PBool false);
                              (lit "error", PStr (exn_str e))]))));
    match outcome with
    | inr failure => mret failure
    | inl reply =>
        add_message (lit "assistant") reply;;
        mret (JsonResponse 200
                (PDict [(lit "ok", PBool true);
                        (lit "reply", text_value reply)]))
    end.

(** *** [POST /api/ai-recommendation] *)

Definition user_prompt
    (crop_name location feasibility_level score temp soil precip : pyvalue)
    : pystr :=
  (lit "Para el cultivo " ++ py_str crop_name ++ lit " en "
     ++ py_str location ++ lit ": Viabilidad " ++ py_str feasibility_level
     ++ lit " ")
  ++ (lit "(puntuación " ++ py_str score ++ lit "). Condiciones: "
        ++ py_str temp ++ lit "°C, humedad del suelo " ++ py_str soil
        ++ lit "%, ")
  ++ (lit "precipitación " ++ py_str precip
        ++ lit " mm. ¿Qué recomendaciones puedes dar al agricultor?").

Definition ai_recommendation (req : request) : M response :=
  let data := request_data req in
  crop_name ← py_get data (lit "crop_name") PNone;
  feasibility_level ← py_get data (lit "feasibility_level") PNone;
  score ← py_get data (lit "feasibility_score") PNone;
  temp ← py_get data (lit "temperature") PNone;
  soil ← py_get data (lit "soil_moisture") PNone;
  precip ← py_get data (lit "precipitation") PNone;
  location ← py_get data (lit "location_name") PNone;
  let user_prompt :=
    user_prompt crop_name location feasibility_level score temp soil precip in
  try_except
    (choices ← create {| model := MODEL;
                         messages := [system_turn;
                                      mkTurn (lit "user") (Some user_prompt)];
                         temperature := 0.7; max_tokens := 200 |};
     choice ← first choices;
     message ← py_strip (text_value choice);
     mret (JsonResponse 200 (PDict [(lit "message", PStr message)])))
    (fun e =>
       mret (JsonResponse 500 (PDict [(lit "error", PStr (exn_str e))]))).

(** The prompt the handler builds when the decoded body is a dict with
    items [d]: each [data.get(key)] is the item's value, or [None]. *)
Definition built_prompt (d : list (pystr * pyvalue)) : pystr :=
  let field key := default PNone (items_get d key) in
  user_prompt
    (field (lit "crop_name")) (field (lit "location_name"))
    (field (lit "feasibility_level")) (field (lit "feasibility_score"))
    (field (lit "temperature")) (field (lit "soil_moisture"))
    (field (lit "precipitation")).

(** *** The routes and the sessions they produce *)

Inductive route : Type := Index | Chat | Recommendation.

Definition view (r : route) : request -> M response :=
  match r with
  | Index => index
  | Chat => chat
  | Recommendation => ai_recommendation
  end.

(** The sessions of the running application: a client starts with an
    empty session, and each request leaves the session its view function
    ends with, whatever the completion client answers. *)
Inductive reachable : session -> Prop :=
| reachable_new : reachable ∅
| reachable_request (r : route) (client : completion_request -> gateway_outcome)
    (req : request) (s : session) :
    reachable s -> reachable (run client (view r req s)).2.

(** A stored history starts with the system turn. *)
Definition seeded (s : session) : Prop :=
  match s !! lit "history" with
  | Some h => exists rest, h = system_turn :: rest
  | None => True
  end.

(** The history a read of the session gives: the stored one, or the
    seed. *)
Definition stored_history (s : session) : list Turn :=
  default [system_turn] (s !! lit "history").

(** [add_message] once per turn of [ts], in order. *)
Fixpoint add_messages (ts : list Turn) : M unit :=
  match ts with
  | [] => mret tt
  | t :: ts' => add_message (role t) (content t);; add_messages ts'
  end.

(** *** The prompt as the specification words it

    A fixed sentence template with seven named holes, each filled with
    the text of the field of that name, and with the text of [None]
    where the request has no such field. *)
Inductive segment : Type :=
| Text (t : pystr)
| Field (name : pystr).

Definition PROMPT_TEMPLATE : list segment :=
  [ Text (lit "Para el cultivo "); Field (lit "crop_name");
    Text (lit " en "); Field (lit "location_name");
    Text (lit ": Viabilidad "); Field (lit "feasibility_level");
    Text (lit " (puntuación "); Field (lit "feasibility_score");
    Text (lit "). Condiciones: "); Field (lit "temperature");
    Text (lit "°C, humedad del suelo "); Field (lit "soil_moisture");
    Text (lit "%, precipitación "); Field (lit "precipitation");
    Text (lit " mm. ¿Qué recomendaciones puedes dar al agricultor?") ].

Definition RECOMMENDATION_FIELDS : list pystr :=
  [ lit "crop_name"; lit "location_name"; lit "feasibility_level";
    lit "feasibility_score"; lit "temperature"; lit "soil_moisture";
    lit "precipitation" ].

(** The names of the holes of a template, in order. *)
Fixpoint holes (template : list segment) : list pystr :=
  match template with
  | [] => []
  | Text _ :: rest => holes rest
  | Field name :: rest => name :: holes rest
  end.

Definition fill (fields : pystr -> option pyvalue) (seg : segment) : pystr :=
  match seg with
  | Text t => t
  | Field name =>
      match fields name with
      | Some v => py_str v
      | None => lit "None"
      end
  end.

Definition interpolate (template : list segment)
    (fields : pystr -> option pyvalue) : pystr :=
  concat (map (fill fields) template).

(** The two error bodies and the two requests to the client. *)
Definition EMPTY_MESSAGE : pyvalue :=
  PDict [(lit "ok", PBool false); (lit "error", PStr (lit "Mensaje vacío"))].

Definition chat_request (history : list Turn) : completion_request :=
  {| model := MODEL; messages := history;
     temperature := 0.7; max_tokens := 400 |}.

Definition recommendation_request (prompt : pystr) : completion_request :=
  {| model := MODEL;
     messages := [system_turn; mkTurn (lit "user") (Some prompt)];
     temperature := 0.7; max_tokens := 200 |}.

(** The message of a chat request is missing or blank: the decoded body
    is an object without [message], or with a [message] string that is
    empty once stripped. *)
Definition empty_message (data : pyvalue) : Prop :=
  exists d, data = PDict d
    /\ (items_get d (lit "message") = None
        \/ exists m, items_get d (lit "message") = Some (PStr m)
                     /\ strip m = []).

End App.

(** ** Sample data

    A process without [MODEL] in its environment, stand-ins for the two
    [repr] renderings that agree with Python on the values of the examples
    ([0.9], zeros, infinities, strings without quotes or escapes), a client
    that always answers, one that always fails, and the requests of the
    examples. *)

Definition sample_environ : gmap pystr pystr := ∅.

(** The binary64 number written [0.9]. *)
Definition nine_tenths : spec_float :=
  S754_finite false 8106479329266893 (-53).

Definition sample_float_repr (f : spec_float) : pystr :=
  match f with
  | S754_zero false => lit "0.0"
  | S754_zero true => lit "-0.0"
  | S754_infinity false => lit "inf"
  | S754_infinity true => lit "-inf"
  | S754_nan => lit "nan"
  | S754_finite false 8106479329266893 (-53) => lit "0.9"
  | S754_finite sign m e =>
      (if sign then lit "-" else []) ++ int_str (Zpos m) ++ lit "*2**"
      ++ int_str e
  end.

Definition sample_str_repr (s : pystr) : pystr := lit "'" ++ s ++ lit "'".

Definition answering (text : pystr) (req : completion_request) : gateway_outcome :=
  Completed [Some text].

Definition failing (message : pystr) (req : completion_request) : gateway_outcome :=
  Failed message.

Definition json_post (v : pyvalue) : request := mkHttp [] (Json v).

Definition hola_request : request :=
  json_post (PDict [(lit "message", PStr (lit "Hola"))]).

Definition blank_request : request :=
  json_post (PDict [(lit "message", PStr (lit ""))]).

Definition maiz_request : request :=
  json_post
    (PDict [(lit "crop_name", PStr (lit "maíz"));
            (lit "location_name", PStr (lit "Valle"));
            (lit "feasibility_level", PStr (lit "alta"));
            (lit "feasibility_score", PFloat nine_tenths);
            (lit "temperature", PInt 25);
            (lit "soil_moisture", PInt 40);
            (lit "precipitation", PInt 120)]).

Definition list_request : request := json_post (PList [PInt 1]).

Definition new_request : request := mkHttp [(lit "new", lit "1")] Absent.

Definition empty_post : request := mkHttp [] Absent.

Definition hola_reply : pystr := lit "¡Hola! ¿En qué puedo ayudarte?".

Definition riegue_reply : pystr := lit "Riegue moderadamente.".

(** The session a first chat leaves. *)
Definition hola_session : session :=
  (run (answering hola_reply)
     (chat sample_environ sample_str_repr hola_request ∅)).2.

(** ** Vocabulary for the behaviour of the handlers

    What a chat request asks to send, the shape of a stored history, and
    a client session as a series of requests. *)

(** The user message [chat] goes on with: the stripped [message] of an
    object body, when it is a string that is not blank. *)
Definition chat_message (req : request) : option pystr :=
  match request_data req with
  | PDict d =>
      match items_get d (lit "message") with
      | Some (PStr m) =>
          match strip m with
          | [] => None
          | u => Some u
          end
      | _ => None
      end
  | _ => None
  end.

Definition user_turn (u : pystr) : Turn := mkTurn (lit "user") (Some u).

Definition assistant_turn (reply : option pystr) : Turn :=
  mkTurn (lit "assistant") reply.

(** The turns after the system turn: user turns whose content is a text
    that is not empty and that [strip] leaves as it is, and assistant
    turns, each right after a user turn.  [after_user] tells whether the
    turn before was a user turn. *)
Fixpoint dialogue (after_user : bool) (h : list Turn) : bool :=
  match h with
  | [] => true
  | t :: h' =>
      if bool_decide (role t = lit "user") then
        match content t with
        | Some (c :: u) => bool_decide (strip (c :: u) = c :: u) && dialogue true h'
        | _ => false
        end
      else if bool_decide (role t = lit "assistant") then
        after_user && dialogue false h'
      else false
  end.

#[global] Instance Turn_eq_dec : EqDecision Turn.
Proof. solve_decision. Defined.

Definition well_formed (h : list Turn) : bool :=
  match h with
  | t :: h' => bool_decide (t = system_turn) && dialogue false h'
  | [] => false
  end.

(** The session after a series of chat requests of one client. *)
Fixpoint chats (environ : gmap pystr pystr) (str_repr : pystr -> pystr)
    (client : completion_request -> gateway_outcome)
    (reqs : list request) (s : session) : session :=
  match reqs with
  | [] => s
  | req :: reqs' =>
      chats environ str_repr client reqs'
        (run client (chat environ str_repr req s)).2
  end.

(** The turns one answered chat request adds. *)
Definition exchange (req : request) (reply : pystr) : list Turn :=
  match chat_message req with
  | Some u => [user_turn u; assistant_turn (Some reply)]
  | None => []
  end.

(** More sample data: a client that fails while the history is short, and
    requests with a blank, a null and a numeric message. *)
Definition flaky (req : completion_request) : gateway_outcome :=
  if (length (messages req) <=? 2)%nat
  then Failed (lit "Connection error.")
  else Completed [Some hola_reply].

Definition spaces_request : request :=
  json_post (PDict [(lit "message", PStr [32; 0xA0; 0x2003; 10])]).

Definition null_message_request : request :=
  json_post (PDict [(lit "message", PNone)]).

Definition zero_request : request := json_post (PInt 0).

Definition gracias_request : request :=
  json_post (PDict [(lit "message", PStr (lit " Gracias "))]).

(** ** Running programs *)

Lemma run_prog_bind {A B : Type} (client : completion_request -> gateway_outcome)
    (p : prog A) (f : A -> prog B) :
  run client (prog_bind p f) = run client (f (run client p)).
Proof. induction p as [a | req k IH]; simpl; [reflexivity | apply IH]. Qed.

Lemma requests_prog_bind {A B : Type}
    (client : completion_request -> gateway_outcome) (p : prog A) (f : A -> prog B) :
  requests client (prog_bind p f)
  = requests client p ++ requests client (f (run client p)).
Proof.
  induction p as [a | req k IH]; simpl; [reflexivity |].
  by rewrite IH.
Qed.

(** A bind runs its first part, then its second on the session the first
    one left; an exception of the first part ends the run. *)
Lemma run_bind {A B : Type} (client : completion_request -> gateway_outcome)
    (m : M A) (f : A -> M B) (s : session) :
  run client ((m ≫= f) s)
  = match (run client (m s)).1 with
    | Ok a => run client (f a (run client (m s)).2)
    | Raise e => (Raise e, (run client (m s)).2)
    end.
Proof.
  unfold mbind, M_bind. rewrite run_prog_bind.
  by destruct (run client (m s)) as [[a | e] s'].
Qed.

Lemma requests_bind {A B : Type} (client : completion_request -> gateway_outcome)
    (m : M A) (f : A -> M B) (s : session) :
  requests client ((m ≫= f) s)
  = requests client (m s)
    ++ match (run client (m s)).1 with
       | Ok a => requests client (f a (run client (m s)).2)
       | Raise e => []
       end.
Proof.
  unfold mbind, M_bind. rewrite requests_prog_bind.
  by destruct (run client (m s)) as [[a | e] s'].
Qed.

(** [try ... except] runs the handler where the body raised, on the
    session the body left. *)
Lemma run_try_except {A : Type} (client : completion_request -> gateway_outcome)
    (body : M A) (handler : exn -> M A) (s : session) :
  run client (try_except body handler s)
  = match (run client (body s)).1 with
    | Ok a => (Ok a, (run client (body s)).2)
    | Raise e => run client (handler e (run client (body s)).2)
    end.
Proof.
  unfold try_except. rewrite run_prog_bind.
  by destruct (run client (body s)) as [[a | e] s'].
Qed.

Lemma requests_try_except {A : Type}
    (client : completion_request -> gateway_outcome)
    (body : M A) (handler : exn -> M A) (s : session) :
  requests client (try_except body handler s)
  = requests client (body s)
    ++ match (run client (body s)).1 with
       | Ok a => []
       | Raise e => requests client (handler e (run client (body s)).2)
       end.
Proof.
  unfold try_except. rewrite requests_prog_bind.
  by destruct (run client (body s)) as [[a | e] s'].
Qed.

(** ** The history helpers *)

Lemma get_history_absent (s : session) :
  s !! lit "history" = None ->
  get_history s
  = Done (Ok [system_turn], <[lit "history" := [system_turn]]> s).
Proof.
  intros Habsent. unfold get_history, mbind, M_bind, session_contains. simpl.
  rewrite Habsent. rewrite bool_decide_eq_false_2 by (by intros [? ?]).
  simpl. unfold session_getitem. by rewrite lookup_insert_eq.
Qed.

Lemma get_history_present (s : session) (h : list Turn) :
  s !! lit "history" = Some h ->
  get_history s = Done (Ok h, s).
Proof.
  intros Hpresent. unfold get_history, mbind, M_bind, session_contains. simpl.
  rewrite Hpresent. rewrite bool_decide_eq_true_2 by eauto.
  simpl. unfold session_getitem. by rewrite Hpresent.
Qed.

(** In both cases the read yields [stored_history] and leaves it stored. *)
Lemma get_history_stored (s : session) :
  get_history s
  = Done (Ok (stored_history s), <[lit "history" := stored_history s]> s).
Proof.
  unfold stored_history. destruct (s !! lit "history") as [h |] eqn:Hs; simpl.
  - rewrite (get_history_present _ _ Hs). by rewrite insert_id.
  - by apply get_history_absent.
Qed.

Lemma stored_history_insert (s : session) (h : list Turn) :
  stored_history (<[lit "history" := h]> s) = h.
Proof. unfold stored_history. by rewrite lookup_insert_eq. Qed.

Lemma add_message_stored (role : pystr) (content : option pystr) (s : session) :
  add_message role content s
  = Done (Ok tt,
          <[lit "history" := stored_history s ++ [mkTurn role content]]> s).
Proof.
  unfold add_message, mbind, M_bind. rewrite get_history_stored. simpl.
  unfold session_setitem. by rewrite insert_insert_eq.
Qed.

(** Equations for a bind whose first part ends without calling the
    client. *)
Lemma bind_done {A B : Type} (m : M A) (f : A -> M B) (s s' : session) (a : A) :
  m s = Done (Ok a, s') -> (m ≫= f) s = f a s'.
Proof. intros Hm. unfold mbind, M_bind. by rewrite Hm. Qed.

Lemma bind_raise {A B : Type} (m : M A) (f : A -> M B) (s s' : session) (e : exn) :
  m s = Done (Raise e, s') -> (m ≫= f) s = Done (Raise e, s').
Proof. intros Hm. unfold mbind, M_bind. by rewrite Hm. Qed.

Lemma bind_ret {A B : Type} (a : A) (f : A -> M B) (s : session) :
  (mret a ≫= f) s = f a s.
Proof. reflexivity. Qed.

Lemma bind_add_message {B : Type} (role : pystr) (content : option pystr)
    (f : unit -> M B) (s : session) :
  (add_message role content ≫= f) s
  = f tt (<[lit "history" := stored_history s ++ [mkTurn role content]]> s).
Proof. apply bind_done, add_message_stored. Qed.

Lemma bind_get_history {B : Type} (f : list Turn -> M B) (s : session) :
  (get_history ≫= f) s
  = f (stored_history s) (<[lit "history" := stored_history s]> s).
Proof. apply bind_done, get_history_stored. Qed.

Lemma run_bind_create {B : Type} (client : completion_request -> gateway_outcome)
    (req : completion_request) (f : list (option pystr) -> M B) (s : session) :
  run client ((create req ≫= f) s)
  = match client req with
    | Completed choices => run client (f choices s)
    | Failed msg => (Raise (APIError msg), s)
    end.
Proof. unfold create, mbind, M_bind. simpl. by destruct (client req). Qed.

Lemma requests_bind_create {B : Type}
    (client : completion_request -> gateway_outcome)
    (req : completion_request) (f : list (option pystr) -> M B) (s : session) :
  requests client ((create req ≫= f) s)
  = req :: match client req with
           | Completed choices => requests client (f choices s)
           | Failed msg => []
           end.
Proof. unfold create, mbind, M_bind. simpl. by destruct (client req). Qed.

(** ** The handlers *)

Arguments lit : simpl never.
Arguments strip : simpl never.

(** Runs [chat] on a body with a message that is not blank up to the end
    of the first [add_message]. *)
Ltac chat_past_validation Hdata Hmsg :=
  unfold chat; rewrite Hdata; simpl py_get; rewrite Hmsg; simpl default;
  rewrite bind_ret; simpl py_strip; rewrite bind_ret;
  match goal with
  | Hstrip : strip ?m <> [] |- _ =>
      let c := fresh "c" in
      let u := fresh "u" in
      let Hu := fresh "Hu" in
      destruct (strip m) as [| c u] eqn:Hu; [done |]
  end;
  cbn [truthy negb]; rewrite bind_add_message.

Section Properties.

Variable environ : gmap pystr pystr.
Variable float_repr : spec_float -> pystr.
Variable str_repr : pystr -> pystr.
Implicit Types client : completion_request -> gateway_outcome.

(** *** [chat], case by case *)

Lemma chat_not_dict (req : request) (s : session) :
  (forall d, request_data req <> PDict d) ->
  chat environ str_repr req s
  = Done (Raise (AttributeError (type_name (request_data req)) (lit "get")), s).
Proof.
  intros Hdata. unfold chat.
  destruct (request_data req) as [| b | z | f | t | l | d];
    try reflexivity.
  by destruct (Hdata d).
Qed.

Lemma chat_not_str (req : request) (d : list (pystr * pyvalue))
    (v : pyvalue) (s : session) :
  request_data req = PDict d ->
  items_get d (lit "message") = Some v ->
  (forall m, v <> PStr m) ->
  chat environ str_repr req s
  = Done (Raise (AttributeError (type_name v) (lit "strip")), s).
Proof.
  intros Hdata Hmsg Hv. unfold chat. rewrite Hdata. simpl py_get.
  rewrite Hmsg. simpl default. rewrite bind_ret.
  destruct v as [| b | z | f | t | l | d']; try reflexivity.
  by destruct (Hv t).
Qed.

Lemma chat_blank (req : request) (s : session) :
  empty_message (request_data req) ->
  chat environ str_repr req s = Done (Ok (JsonResponse 400 EMPTY_MESSAGE), s).
Proof.
  intros (d & Hdata & Hmsg). unfold chat. rewrite Hdata. simpl py_get.
  destruct Hmsg as [Hmsg | (m & Hmsg & Hm)]; rewrite Hmsg; simpl default;
    rewrite bind_ret; simpl py_strip; rewrite bind_ret.
  - reflexivity.
  - by rewrite Hm.
Qed.

Lemma chat_valid_run client (req : request) (d : list (pystr * pyvalue))
    (m : pystr) (s : session) :
  request_data req = PDict d ->
  items_get d (lit "message") = Some (PStr m) ->
  strip m <> [] ->
  let history := stored_history s ++ [mkTurn (lit "user") (Some (strip m))] in
  run client (chat environ str_repr req s)
  = match client (chat_request environ history) with
    | Completed (reply :: _) =>
        (Ok (JsonResponse 200
               (PDict [(lit "ok", PBool true);
                       (lit "reply", text_value reply)])),
         <[lit "history" := history ++ [mkTurn (lit "assistant") reply]]> s)
    | Completed [] =>
        (Ok (JsonResponse 500
               (PDict [(lit "ok", PBool false);
                       (lit "error", PStr (lit "list index out of range"))])),
         <[lit "history" := history]> s)
    | Failed msg =>
        (Ok (JsonResponse 500
               (PDict [(lit "ok", PBool false); (lit "error", PStr msg)])),
         <[lit "history" := history]> s)
    end.
Proof.
  intros Hdata Hmsg Hstrip history.
  chat_past_validation Hdata Hmsg. fold history.
  rewrite run_bind, run_try_except, bind_get_history.
  rewrite stored_history_insert, insert_insert_eq.
  unfold chat_request. rewrite !run_bind_create.
  destruct (client _) as [[| reply rest] | msg]; simpl; try reflexivity.
  by rewrite bind_add_message, stored_history_insert, insert_insert_eq.
Qed.

Lemma chat_valid_requests client (req : request) (d : list (pystr * pyvalue))
    (m : pystr) (s : session) :
  request_data req = PDict d ->
  items_get d (lit "message") = Some (PStr m) ->
  strip m <> [] ->
  requests client (chat environ str_repr req s)
  = [chat_request environ
       (stored_history s ++ [mkTurn (lit "user") (Some (strip m))])].
Proof.
  intros Hdata Hmsg Hstrip.
  chat_past_validation Hdata Hmsg.
  rewrite requests_bind, requests_try_except, run_try_except.
  rewrite bind_get_history.
  rewrite stored_history_insert, insert_insert_eq.
  unfold chat_request. rewrite requests_bind_create, !run_bind_create.
  destruct (client _) as [[| reply rest] | msg]; simpl; try reflexivity.
  by rewrite bind_add_message.
Qed.

(** *** [ai_recommendation] *)

(** The prompt built from the items of the decoded body. *)
Lemma ai_recommendation_unfold (req : request) (d : list (pystr * pyvalue))
    (s : session) :
  request_data req = PDict d ->
  let prompt := built_prompt float_repr str_repr d in
  ai_recommendation environ float_repr str_repr req s
  = try_except
      (choices ← create (recommendation_request environ prompt);
       choice ← first choices;
       message ← py_strip (text_value choice);
       mret (JsonResponse 200 (PDict [(lit "message", PStr message)])))
      (fun e =>
         mret (JsonResponse 500
                 (PDict [(lit "error", PStr (exn_str str_repr e))])))
      s.
Proof.
  intros Hdata prompt. unfold ai_recommendation. rewrite Hdata.
  reflexivity.
Qed.

Lemma ai_recommendation_run client (req : request) (d : list (pystr * pyvalue))
    (s : session) :
  request_data req = PDict d ->
  let prompt := built_prompt float_repr str_repr d in
  run client (ai_recommendation environ float_repr str_repr req s)
  = (Ok match client (recommendation_request environ prompt) with
        | Completed (Some text :: _) =>
            JsonResponse 200 (PDict [(lit "message", PStr (strip text))])
        | Completed (None :: _) =>
            JsonResponse 500
              (PDict [(lit "error",
                       PStr (lit "'NoneType' object has no attribute 'strip'"))])
        | Completed [] =>
            JsonResponse 500
              (PDict [(lit "error", PStr (lit "list index out of range"))])
        | Failed msg =>
            JsonResponse 500 (PDict [(lit "error", PStr msg)])
        end, s).
Proof.
  intros Hdata prompt.
  rewrite (ai_recommendation_unfold req d s Hdata). fold prompt.
  rewrite run_try_except, !run_bind_create.
  destruct (client _) as [[| [text |] rest] | msg]; reflexivity.
Qed.

Lemma ai_recommendation_requests client (req : request) (d : list (pystr * pyvalue))
    (s : session) :
  request_data req = PDict d ->
  requests client (ai_recommendation environ float_repr str_repr req s)
  = [recommendation_request environ (built_prompt float_repr str_repr d)].
Proof.
  intros Hdata.
  rewrite (ai_recommendation_unfold req d s Hdata).
  rewrite requests_try_except, run_bind_create, requests_bind_create.
  destruct (client _) as [[| [text |] rest] | msg]; reflexivity.
Qed.

Lemma ai_recommendation_not_dict (req : request) (s : session) :
  (forall d, request_data req <> PDict d) ->
  ai_recommendation environ float_repr str_repr req s
  = Done (Raise (AttributeError (type_name (request_data req)) (lit "get")), s).
Proof.
  intros Hdata. unfold ai_recommendation.
  destruct (request_data req) as [| b | z | f | t | l | d];
    try reflexivity.
  by destruct (Hdata d).
Qed.

(** A value is a dict or it is not. *)
Lemma dict_or_not (v : pyvalue) :
  (exists d, v = PDict d) \/ (forall d, v <> PDict d).
Proof. destruct v; eauto; right; discriminate. Qed.

Lemma ai_recommendation_session client (req : request) (s : session) :
  (run client (ai_recommendation environ float_repr str_repr req s)).2 = s.
Proof.
  destruct (dict_or_not (request_data req)) as [[d Hd] | Hnot].
  - by rewrite (ai_recommendation_run client req d s Hd).
  - by rewrite ai_recommendation_not_dict.
Qed.

(** The source's prompt is the template of the specification filled
    from the items of the body. *)
Lemma fill_field (d : list (pystr * pyvalue)) (key : pystr) :
  fill float_repr str_repr (items_get d) (Field key)
  = py_str float_repr str_repr (default PNone (items_get d key)).
Proof. unfold fill. by destruct (items_get d key). Qed.

Lemma user_prompt_interpolate (d : list (pystr * pyvalue)) :
  built_prompt float_repr str_repr d
  = interpolate float_repr str_repr PROMPT_TEMPLATE (items_get d).
Proof.
  unfold built_prompt, user_prompt, interpolate, PROMPT_TEMPLATE.
  cbn [map concat]. rewrite !fill_field. cbn [fill].
  change (lit " (puntuación ") with (lit " " ++ lit "(puntuación ").
  change (lit "%, precipitación ") with (lit "%, " ++ lit "precipitación ").
  rewrite app_nil_r. rewrite <- !app_assoc. reflexivity.
Qed.

(** *** [index] *)

Lemma index_new (req : request) (s : session) :
  args_get (args req) (lit "new") = Some (lit "1") ->
  index req s = Done (Ok (Html (lit "index.html")), delete (lit "history") s).
Proof. intros Hnew. unfold index. by rewrite decide_True. Qed.

Lemma index_plain (req : request) (s : session) :
  args_get (args req) (lit "new") <> Some (lit "1") ->
  index req s = Done (Ok (Html (lit "index.html")), s).
Proof. intros Hnew. unfold index. by rewrite decide_False. Qed.

(** *** The sessions of the application are seeded *)

Lemma seeded_stored (s : session) :
  seeded s -> exists rest, stored_history s = system_turn :: rest.
Proof.
  unfold seeded, stored_history.
  destruct (s !! lit "history") as [h |]; simpl; eauto.
Qed.

Lemma seeded_extend (s : session) (more : list Turn) :
  seeded s -> seeded (<[lit "history" := stored_history s ++ more]> s).
Proof.
  intros [rest Hrest]%seeded_stored. unfold seeded.
  rewrite lookup_insert_eq, Hrest. by exists (rest ++ more).
Qed.

Lemma chat_seeded client (req : request) (s : session) :
  seeded s -> seeded (run client (chat environ str_repr req s)).2.
Proof.
  intros Hs.
  destruct (dict_or_not (request_data req)) as [[d Hd] | Hnot];
    [| by rewrite chat_not_dict].
  destruct (items_get d (lit "message")) as [v |] eqn:Hmsg;
    [| rewrite chat_blank; [done | exists d; auto]].
  destruct v as [| b | z | f | m | l | d'];
    try (rewrite (chat_not_str req d _ s Hd Hmsg) by discriminate; done).
  destruct (strip m) as [| c u] eqn:Hm.
  - rewrite chat_blank; [done |]. exists d. split; [done |]. right. eauto.
  - rewrite (chat_valid_run client req d m s Hd Hmsg) by (by rewrite Hm).
    destruct (client _) as [[| reply rest] | msg]; simpl;
      rewrite <- ?app_assoc; by apply seeded_extend.
Qed.

Lemma index_seeded client (req : request) (s : session) :
  seeded s -> seeded (run client (index req s)).2.
Proof.
  intros Hs.
  destruct (decide (args_get (args req) (lit "new") = Some (lit "1")))
    as [Hnew | Hnew].
  - rewrite index_new by done. simpl. unfold seeded.
    by rewrite lookup_delete_eq.
  - by rewrite index_plain.
Qed.

Lemma reachable_seeded (s : session) :
  reachable environ float_repr str_repr s -> seeded s.
Proof.
  induction 1 as [| r client req s Hs IH].
  - unfold seeded. by rewrite lookup_empty.
  - destruct r; simpl view.
    + by apply index_seeded.
    + by apply chat_seeded.
    + by rewrite ai_recommendation_session.
Qed.

(** *** The history manager *)

(** C1. In every session of the application [get_history] returns a
    sequence that starts with the system turn, hence is not empty, and
    leaves that sequence stored; where the session holds no history it
    returns exactly the one system turn and stores it. *)
Theorem get_history_system_first (s : session) :
  reachable environ float_repr str_repr s ->
  exists rest s',
    get_history s = Done (Ok (system_turn :: rest), s')
    /\ s' !! lit "history" = Some (system_turn :: rest)
    /\ (s !! lit "history" = None ->
        rest = [] /\ s' = <[lit "history" := [system_turn]]> s)
    /\ (is_Some (s !! lit "history") -> s' = s).
Proof.
  intros Hs%reachable_seeded. unfold seeded in Hs.
  destruct (s !! lit "history") as [h |] eqn:Hh.
  - destruct Hs as [rest ->]. exists rest, s.
    rewrite (get_history_present s _ Hh). by repeat split.
  - exists [], (<[lit "history" := [system_turn]]> s).
    rewrite (get_history_absent s Hh), lookup_insert_eq.
    repeat split; by intros [? ?].
Qed.

(** C2. [add_message] is append-only: the stored history becomes the
    history [get_history] returns followed by the one new turn, so it is
    one longer and its earlier turns are unchanged and in order; after
    the adds of a sequence [ts] the history is the previous one followed
    by [ts], and its length has grown by the length of [ts]. *)
Theorem add_message_append_only (s : session) (role : pystr)
    (content : option pystr) (ts : list Turn) :
  let before := stored_history s in
  let after := before ++ [mkTurn role content] in
  (exists s0, get_history s = Done (Ok before, s0))
  /\ add_message role content s = Done (Ok tt, <[lit "history" := after]> s)
  /\ <[lit "history" := after]> s !! lit "history" = Some after
  /\ length after = S (length before)
  /\ take (length before) after = before
  /\ exists s', add_messages ts s = Done (Ok tt, s')
       /\ stored_history s' = before ++ ts
       /\ length (stored_history s') = (length before + length ts)%nat.
Proof.
  intros before after. repeat split.
  - eexists. apply get_history_stored.
  - apply add_message_stored.
  - apply lookup_insert_eq.
  - unfold after. rewrite length_app. simpl. lia.
  - unfold after. by rewrite take_app_length.
  - subst before after. revert s.
    induction ts as [| t ts IH]; intros s; simpl.
    + exists s. rewrite app_nil_r, Nat.add_0_r. by repeat split.
    + rewrite bind_add_message.
      destruct (IH (<[lit "history" := stored_history s ++ [t]]> s))
        as (s' & Hrun & Hstored & Hlen).
      rewrite stored_history_insert in Hstored, Hlen.
      exists s'. destruct t as [r c]. simpl in *.
      rewrite Hrun, Hstored, <- app_assoc. repeat split.
      rewrite length_app. simpl. done.
Qed.

(** *** The chat handler *)

(** C3, as amended. A chat request whose decoded body is an object that
    has no [message], or a [message] string that is empty once stripped,
    is answered with status 400 and the body
    [{"ok": false, "error": "Mensaje vacío"}], and the session is left as
    it was; and a 400 is answered in that case only, always with that
    body. *)
Theorem chat_empty_message_400 client (req : request) (s : session) :
  (empty_message (request_data req) ->
   run client (chat environ str_repr req s)
   = (Ok (JsonResponse 400
            (PDict [(lit "ok", PBool false);
                    (lit "error", PStr (lit "Mensaje vacío"))])), s))
  /\ (forall json s',
        run client (chat environ str_repr req s)
        = (Ok (JsonResponse 400 json), s') ->
        empty_message (request_data req)
        /\ json = PDict [(lit "ok", PBool false);
                         (lit "error", PStr (lit "Mensaje vacío"))]).
Proof.
  split.
  - intros Hempty. by rewrite chat_blank.
  - intros json s'.
    destruct (dict_or_not (request_data req)) as [[d Hd] | Hnot];
      [| by rewrite chat_not_dict].
    assert (Hblank : empty_message (request_data req) ->
              run client (chat environ str_repr req s)
              = (Ok (JsonResponse 400 json), s') ->
              empty_message (request_data req)
              /\ json = PDict [(lit "ok", PBool false);
                               (lit "error", PStr (lit "Mensaje vacío"))]).
    { intros Hempty. rewrite chat_blank by done. simpl.
      intros [= <- _]. done. }
    destruct (items_get d (lit "message")) as [v |] eqn:Hmsg;
      [| apply Hblank; exists d; auto].
    destruct v as [| b | z | f | m | l | d'];
      try (rewrite (chat_not_str req d _ s Hd Hmsg) by discriminate; done).
    destruct (strip m) as [| c u] eqn:Hm.
    + apply Hblank. exists d. split; [done |]. right. eauto.
    + rewrite (chat_valid_run client req d m s Hd Hmsg) by (by rewrite Hm).
      destruct (client _) as [[| reply rest] | msg]; discriminate.
Qed.

(** C4. A chat request with a message that is not empty once stripped,
    answered by the client with a text: the one request sent to the
    client carries the history with the user turn appended, temperature
    0.7 and at most 400 tokens; the reply is appended as the assistant
    turn; the response is 200 with [{"ok": true, "reply": text}]; in a
    session without history the history ends as system, user,
    assistant. *)
Theorem chat_gateway_success client (req : request)
    (d : list (pystr * pyvalue)) (m text : pystr)
    (more : list (option pystr)) (s : session) :
  request_data req = PDict d ->
  items_get d (lit "message") = Some (PStr m) ->
  strip m <> [] ->
  let user_turn := mkTurn (lit "user") (Some (strip m)) in
  let assistant_turn := mkTurn (lit "assistant") (Some text) in
  let sent :=
    {| model := MODEL environ; messages := stored_history s ++ [user_turn];
       temperature := 0.7; max_tokens := 400 |} in
  client sent = Completed (Some text :: more) ->
  requests client (chat environ str_repr req s) = [sent]
  /\ run client (chat environ str_repr req s)
     = (Ok (JsonResponse 200
              (PDict [(lit "ok", PBool true); (lit "reply", PStr text)])),
        <[lit "history" := stored_history s ++ [user_turn; assistant_turn]]> s)
  /\ (s !! lit "history" = None ->
      stored_history s ++ [user_turn; assistant_turn]
      = [system_turn; user_turn; assistant_turn]).
Proof.
  intros Hd Hmsg Hm user_turn assistant_turn sent Hclient. repeat split.
  - by rewrite (chat_valid_requests client req d m s Hd Hmsg Hm).
  - rewrite (chat_valid_run client req d m s Hd Hmsg Hm).
    fold user_turn. unfold chat_request. fold sent. rewrite Hclient.
    simpl text_value. by rewrite <- app_assoc.
  - intros Hfresh. unfold stored_history. by rewrite Hfresh.
Qed.

(** C5. A chat request with a message that is not empty once stripped,
    when the call to the client raises: the response is 500 with
    [{"ok": false, "error": str(e)}], and the user turn appended before
    the call stays in the history with no assistant turn after it; in a
    session without history the history ends as system, user. *)
Theorem chat_gateway_failure client (req : request)
    (d : list (pystr * pyvalue)) (m error : pystr) (s : session) :
  request_data req = PDict d ->
  items_get d (lit "message") = Some (PStr m) ->
  strip m <> [] ->
  let user_turn := mkTurn (lit "user") (Some (strip m)) in
  client {| model := MODEL environ;
            messages := stored_history s ++ [user_turn];
            temperature := 0.7; max_tokens := 400 |} = Failed error ->
  run client (chat environ str_repr req s)
  = (Ok (JsonResponse 500
           (PDict [(lit "ok", PBool false); (lit "error", PStr error)])),
     <[lit "history" := stored_history s ++ [user_turn]]> s)
  /\ (s !! lit "history" = None ->
      stored_history s ++ [user_turn] = [system_turn; user_turn]).
Proof.
  intros Hd Hmsg Hm user_turn Hclient. split.
  - rewrite (chat_valid_run client req d m s Hd Hmsg Hm).
    fold user_turn. unfold chat_request. by rewrite Hclient.
  - intros Hfresh. unfold stored_history. by rewrite Hfresh.
Qed.

(** C10. A chat request without a body, or with a body that does not
    parse as JSON, does not fail: the body counts as the empty object, no
    request goes to the client, the response is 400 with
    [{"ok": false, "error": "Mensaje vacío"}] and the session is left as
    it was. *)
Theorem chat_no_json_body client (req : request) (s : session) :
  body req = Absent \/ (exists raw, body req = NotJson raw) ->
  request_data req = PDict []
  /\ requests client (chat environ str_repr req s) = []
  /\ run client (chat environ str_repr req s)
     = (Ok (JsonResponse 400
              (PDict [(lit "ok", PBool false);
                      (lit "error", PStr (lit "Mensaje vacío"))])), s).
Proof.
  intros Hbody.
  assert (Hdata : request_data req = PDict []).
  { unfold request_data, get_json_silent.
    by destruct Hbody as [-> | [raw ->]]. }
  assert (Hempty : empty_message (request_data req)).
  { exists []. auto. }
  rewrite (chat_blank req s Hempty). by repeat split.
Qed.

(** *** The recommendation handler *)

(** Filling a template only reads the fields it has holes for. *)
Lemma interpolate_ext (template : list segment)
    (fields fields' : pystr -> option pyvalue) :
  (forall key, key ∈ holes template -> fields key = fields' key) ->
  interpolate float_repr str_repr template fields
  = interpolate float_repr str_repr template fields'.
Proof.
  unfold interpolate.
  induction template as [| [t | name] rest IH]; intros Hagree; simpl.
  - reflexivity.
  - f_equal. apply IH. intros key Hkey. by apply Hagree.
  - rewrite (Hagree name) by (simpl; left).
    f_equal. apply IH. intros key Hkey. apply Hagree. simpl. by right.
Qed.

(** C6. The prompt is a function of the seven fields alone: the user
    turn sent to the client carries the fixed template with its seven
    holes, in the fixed order, filled with the text of the fields, and
    with the text of [None] for a field the body does not have; two
    requests whose bodies agree on the seven fields send the same prompt,
    whatever else differs. *)
Theorem recommendation_prompt_template client (req : request)
    (d : list (pystr * pyvalue)) (s : session) :
  request_data req = PDict d ->
  map messages
    (requests client (ai_recommendation environ float_repr str_repr req s))
  = [[system_turn;
      mkTurn (lit "user")
        (Some (interpolate float_repr str_repr PROMPT_TEMPLATE (items_get d)))]]
  /\ holes PROMPT_TEMPLATE = RECOMMENDATION_FIELDS
  /\ (forall key, items_get d key = None ->
      fill float_repr str_repr (items_get d) (Field key) = lit "None")
  /\ (forall req' d' s',
      request_data req' = PDict d' ->
      (forall key, key ∈ RECOMMENDATION_FIELDS ->
                   items_get d key = items_get d' key) ->
      requests client (ai_recommendation environ float_repr str_repr req' s')
      = requests client (ai_recommendation environ float_repr str_repr req s)).
Proof.
  intros Hd. repeat split.
  - rewrite (ai_recommendation_requests client req d s Hd).
    by rewrite user_prompt_interpolate.
  - intros key Hkey. unfold fill. by rewrite Hkey.
  - intros req' d' s' Hd' Hagree.
    rewrite (ai_recommendation_requests client req d s Hd).
    rewrite (ai_recommendation_requests client req' d' s' Hd').
    rewrite !user_prompt_interpolate.
    by rewrite (interpolate_ext PROMPT_TEMPLATE (items_get d) (items_get d')).
Qed.

(** C7, as amended. A recommendation request whose decoded body is an
    object, with any or none of the seven fields, is answered with 200
    and [{"message": text.strip()}] when the client answers with a text,
    and with 500 and [{"error": str(e)}] when the call raises. *)
Theorem ai_recommendation_responses client (req : request)
    (d : list (pystr * pyvalue)) (s : session) :
  request_data req = PDict d ->
  let sent :=
    recommendation_request environ (built_prompt float_repr str_repr d) in
  requests client (ai_recommendation environ float_repr str_repr req s)
  = [sent]
  /\ (forall text more,
      client sent = Completed (Some text :: more) ->
      run client (ai_recommendation environ float_repr str_repr req s)
      = (Ok (JsonResponse 200 (PDict [(lit "message", PStr (strip text))])),
         s))
  /\ (forall error,
      client sent = Failed error ->
      run client (ai_recommendation environ float_repr str_repr req s)
      = (Ok (JsonResponse 500 (PDict [(lit "error", PStr error)])), s)).
Proof.
  intros Hd sent. repeat split.
  - by rewrite (ai_recommendation_requests client req d s Hd).
  - intros text more Hclient.
    rewrite (ai_recommendation_run client req d s Hd).
    fold sent. by rewrite Hclient.
  - intros error Hclient.
    rewrite (ai_recommendation_run client req d s Hd).
    fold sent. by rewrite Hclient.
Qed.

(** C8. The recommendation handler leaves the session as it found it,
    whatever the request and the client; what it sends to the client is
    the two-turn list of the system turn and the user turn with the
    built prompt, and neither that nor the response depends on the
    session. *)
Theorem ai_recommendation_frame client (req : request) (s s' : session) :
  (run client (ai_recommendation environ float_repr str_repr req s)).2 = s
  /\ map messages
       (requests client (ai_recommendation environ float_repr str_repr req s))
     = match request_data req with
       | PDict d =>
           [[system_turn;
             mkTurn (lit "user") (Some (built_prompt float_repr str_repr d))]]
       | _ => []
       end
  /\ requests client (ai_recommendation environ float_repr str_repr req s')
     = requests client (ai_recommendation environ float_repr str_repr req s)
  /\ (run client (ai_recommendation environ float_repr str_repr req s')).1
     = (run client (ai_recommendation environ float_repr str_repr req s)).1.
Proof.
  split; [apply ai_recommendation_session |].
  destruct (dict_or_not (request_data req)) as [[d Hd] | Hnot].
  - rewrite !(ai_recommendation_requests client req d _ Hd).
    rewrite !(ai_recommendation_run client req d _ Hd).
    by rewrite Hd.
  - rewrite !ai_recommendation_not_dict by done.
    by destruct (request_data req) as [| b | z | f | t | l | d];
      [.. | destruct (Hnot d)].
Qed.

(** *** The reset *)

(** C9. [GET /] with [new=1] never fails and leaves the session without
    a stored history, whether or not it had one; a second reset changes
    nothing; the next [get_history] stores and returns the one system
    turn. *)
Theorem index_reset_idempotent client (req : request) (s : session) :
  args_get (args req) (lit "new") = Some (lit "1") ->
  let cleared := delete (lit "history") s in
  run client (index req s) = (Ok (Html (lit "index.html")), cleared)
  /\ cleared !! lit "history" = None
  /\ (s !! lit "history" = None -> cleared = s)
  /\ run client (index req cleared) = (Ok (Html (lit "index.html")), cleared)
  /\ get_history cleared
     = Done (Ok [system_turn], <[lit "history" := [system_turn]]> cleared).
Proof.
  intros Hnew cleared.
  assert (Hgone : cleared !! lit "history" = None)
    by apply lookup_delete_eq.
  repeat split.
  - by rewrite index_new.
  - done.
  - intros Habsent. by apply delete_id.
  - rewrite index_new by done. simpl. by rewrite delete_id.
  - by apply get_history_absent.
Qed.

End Properties.

(** ** The properties at the sample data *)

Lemma get_history_system_first_witness :
  reachable sample_environ sample_float_repr sample_str_repr hola_session
  /\ exists rest s',
       get_history hola_session = Done (Ok (system_turn :: rest), s')
       /\ s' !! lit "history" = Some (system_turn :: rest)
       /\ (hola_session !! lit "history" = None ->
           rest = [] /\ s' = <[lit "history" := [system_turn]]> hola_session)
       /\ (is_Some (hola_session !! lit "history") -> s' = hola_session).
Proof.
  assert (Hreach : reachable sample_environ sample_float_repr sample_str_repr
                     hola_session).
  { apply (reachable_request _ _ _ Chat (answering hola_reply) hola_request ∅).
    apply reachable_new. }
  split; [exact Hreach |].
  exact (get_history_system_first _ _ _ hola_session Hreach).
Defined.

Lemma chat_empty_message_400_witness :
  empty_message (request_data blank_request)
  /\ run (answering hola_reply)
       (chat sample_environ sample_str_repr blank_request hola_session)
     = (Ok (JsonResponse 400
              (PDict [(lit "ok", PBool false);
                      (lit "error", PStr (lit "Mensaje vacío"))])),
        hola_session).
Proof.
  assert (Hempty : empty_message (request_data blank_request)).
  { exists [(lit "message", PStr (lit ""))]. split; [reflexivity |].
    right. exists (lit ""). split; reflexivity. }
  split; [exact Hempty |].
  exact (proj1 (chat_empty_message_400 sample_environ sample_str_repr
                  (answering hola_reply) blank_request hola_session) Hempty).
Defined.

Lemma chat_gateway_success_witness :
  strip (lit "Hola") <> []
  /\ run (answering hola_reply)
       (chat sample_environ sample_str_repr hola_request ∅)
     = (Ok (JsonResponse 200
              (PDict [(lit "ok", PBool true); (lit "reply", PStr hola_reply)])),
        <[lit "history" := [system_turn;
                            mkTurn (lit "user") (Some (lit "Hola"));
                            mkTurn (lit "assistant") (Some hola_reply)]]> ∅).
Proof.
  assert (Hmsg : strip (lit "Hola") <> []) by (vm_compute; discriminate).
  split; [exact Hmsg |].
  exact (proj1 (proj2
    (chat_gateway_success sample_environ sample_str_repr (answering hola_reply)
       hola_request [(lit "message", PStr (lit "Hola"))] (lit "Hola")
       hola_reply [] ∅ eq_refl eq_refl Hmsg eq_refl))).
Defined.

Lemma chat_gateway_failure_witness :
  strip (lit "Hola") <> []
  /\ run (failing (lit "Connection error."))
       (chat sample_environ sample_str_repr hola_request ∅)
     = (Ok (JsonResponse 500
              (PDict [(lit "ok", PBool false);
                      (lit "error", PStr (lit "Connection error."))])),
        <[lit "history" := [system_turn;
                            mkTurn (lit "user") (Some (lit "Hola"))]]> ∅).
Proof.
  assert (Hmsg : strip (lit "Hola") <> []) by (vm_compute; discriminate).
  split; [exact Hmsg |].
  exact (proj1
    (chat_gateway_failure sample_environ sample_str_repr
       (failing (lit "Connection error."))
       hola_request [(lit "message", PStr (lit "Hola"))] (lit "Hola")
       (lit "Connection error.") ∅ eq_refl eq_refl Hmsg eq_refl)).
Defined.

Lemma chat_no_json_body_witness :
  body empty_post = Absent
  /\ run (answering hola_reply)
       (chat sample_environ sample_str_repr empty_post hola_session)
     = (Ok (JsonResponse 400
              (PDict [(lit "ok", PBool false);
                      (lit "error", PStr (lit "Mensaje vacío"))])),
        hola_session).
Proof.
  split; [reflexivity |].
  exact (proj2 (proj2
    (chat_no_json_body sample_environ sample_str_repr (answering hola_reply)
       empty_post hola_session (or_introl eq_refl)))).
Defined.

Lemma recommendation_prompt_template_witness :
  request_data maiz_request
  = PDict [(lit "crop_name", PStr (lit "maíz"));
           (lit "location_name", PStr (lit "Valle"));
           (lit "feasibility_level", PStr (lit "alta"));
           (lit "feasibility_score", PFloat nine_tenths);
           (lit "temperature", PInt 25);
           (lit "soil_moisture", PInt 40);
           (lit "precipitation", PInt 120)]
  /\ map messages
       (requests (answering riegue_reply)
          (ai_recommendation sample_environ sample_float_repr sample_str_repr
             maiz_request ∅))
     = [[system_turn;
         mkTurn (lit "user")
           (Some (lit "Para el cultivo maíz en Valle: Viabilidad alta (puntuación 0.9). Condiciones: 25°C, humedad del suelo 40%, precipitación 120 mm. ¿Qué recomendaciones puedes dar al agricultor?"))]].
Proof.
  split; [reflexivity |].
  exact (proj1
    (recommendation_prompt_template sample_environ sample_float_repr
       sample_str_repr (answering riegue_reply) maiz_request _ ∅ eq_refl)).
Defined.

Lemma ai_recommendation_responses_witness :
  request_data empty_post = PDict []
  /\ run (answering riegue_reply)
       (ai_recommendation sample_environ sample_float_repr sample_str_repr
          empty_post hola_session)
     = (Ok (JsonResponse 200 (PDict [(lit "message", PStr riegue_reply)])),
        hola_session)
  /\ run (failing (lit "Connection error."))
       (ai_recommendation sample_environ sample_float_repr sample_str_repr
          empty_post hola_session)
     = (Ok (JsonResponse 500
              (PDict [(lit "error", PStr (lit "Connection error."))])),
        hola_session).
Proof.
  split; [reflexivity |]. split.
  - exact (proj1 (proj2
      (ai_recommendation_responses sample_environ sample_float_repr
         sample_str_repr (answering riegue_reply) empty_post [] hola_session
         eq_refl)) riegue_reply [] eq_refl).
  - exact (proj2 (proj2
      (ai_recommendation_responses sample_environ sample_float_repr
         sample_str_repr (failing (lit "Connection error.")) empty_post []
         hola_session eq_refl)) (lit "Connection error.") eq_refl).
Defined.

Lemma index_reset_idempotent_witness :
  args_get (args new_request) (lit "new") = Some (lit "1")
  /\ run (answering hola_reply) (index new_request hola_session)
     = (Ok (Html (lit "index.html")), delete (lit "history") hola_session)
  /\ delete (lit "history") hola_session !! lit "history" = None.
Proof.
  split; [reflexivity |].
  pose proof (index_reset_idempotent (answering hola_reply) new_request
                hola_session eq_refl) as (Hrun & Hgone & _).
  split; [exact Hrun | exact Hgone].
Defined.

(** C3, as first stated, fails where the decoded body is not an object:
    the body [[1]] has no [message] field, yet [data.get] raises
    [AttributeError] and no 400 is answered. *)
Lemma chat_list_body_no_400 :
  body list_request = Json (PList [PInt 1])
  /\ ~ empty_message (request_data list_request)
  /\ run (answering hola_reply)
       (chat sample_environ sample_str_repr list_request ∅)
     = (Raise (AttributeError (lit "list") (lit "get")), ∅)
  /\ ~ (exists json s',
         run (answering hola_reply)
           (chat sample_environ sample_str_repr list_request ∅)
         = (Ok (JsonResponse 400 json), s')).
Proof.
  assert (Hrun : run (answering hola_reply)
                   (chat sample_environ sample_str_repr list_request ∅)
                 = (Raise (AttributeError (lit "list") (lit "get")), ∅))
    by reflexivity.
  split; [reflexivity |]. split.
  - intros (d & Hd & _). discriminate Hd.
  - split; [exact Hrun |].
    rewrite Hrun. intros (json & s' & Hok). discriminate Hok.
Qed.

(** The chat handler on the same kind of body: it raises as well, and
    answers neither 400 nor 200. *)
Example chat_list_body_raises :
  run (answering hola_reply)
    (chat sample_environ sample_str_repr list_request ∅)
  = (Raise (AttributeError (lit "list") (lit "get")), ∅).
Proof. reflexivity. Qed.

(** A completion without text is stored and returned as [None] by the
    chat handler, and makes the recommendation handler answer 500. *)
Example chat_reply_without_text :
  run (fun _ => Completed [None])
    (chat sample_environ sample_str_repr hola_request ∅)
  = (Ok (JsonResponse 200 (PDict [(lit "ok", PBool true); (lit "reply", PNone)])),
     <[lit "history" := [system_turn;
                         mkTurn (lit "user") (Some (lit "Hola"));
                         mkTurn (lit "assistant") None]]> ∅).
Proof. reflexivity. Qed.

Example ai_recommendation_reply_without_text :
  run (fun _ => Completed [None])
    (ai_recommendation sample_environ sample_float_repr sample_str_repr
       maiz_request ∅)
  = (Ok (JsonResponse 500
           (PDict [(lit "error",
                    PStr (lit "'NoneType' object has no attribute 'strip'"))])),
     ∅).
Proof. reflexivity. Qed.

(** C7, as first stated, fails where the decoded body is not an object:
    for the body [[1]] the first [data.get] raises [AttributeError] before
    the client is called, so no response is built although the client
    would have answered. *)
Lemma ai_recommendation_list_body_raises :
  run (answering riegue_reply)
    (ai_recommendation sample_environ sample_float_repr sample_str_repr
       list_request ∅)
  = (Raise (AttributeError (lit "list") (lit "get")), ∅)
  /\ requests (answering riegue_reply)
       (ai_recommendation sample_environ sample_float_repr sample_str_repr
          list_request ∅)
     = []
  /\ ~ (exists json s',
         run (answering riegue_reply)
           (ai_recommendation sample_environ sample_float_repr sample_str_repr
              list_request ∅)
         = (Ok (JsonResponse 200 json), s')).
Proof.
  assert (Hrun : run (answering riegue_reply)
                   (ai_recommendation sample_environ sample_float_repr
                      sample_str_repr list_request ∅)
                 = (Raise (AttributeError (lit "list") (lit "get")), ∅))
    by reflexivity.
  split; [exact Hrun |]. split; [reflexivity |].
  rewrite Hrun. intros (json & s' & Hok). discriminate Hok.
Qed.

(** ** Stripping *)

Lemma lstrip_keeps (c : codepoint) (s : pystr) :
  isspace c = false -> lstrip (c :: s) = c :: s.
Proof. intros Hc. simpl. by rewrite Hc. Qed.

Lemma lstrip_cases (s : pystr) :
  lstrip s = [] \/ exists c r, lstrip s = c :: r /\ isspace c = false.
Proof.
  induction s as [| c s IH]; [by left |].
  simpl. destruct (isspace c) eqn:Hc; [exact IH |].
  right. by exists c, s.
Qed.

Lemma lstrip_snoc (l : pystr) (c : codepoint) :
  isspace c = false -> lstrip (l ++ [c]) = lstrip l ++ [c].
Proof.
  intros Hc. induction l as [| a l IH]; simpl.
  - by rewrite Hc.
  - by destruct (isspace a).
Qed.

Lemma lstrip_nil_iff (s : pystr) :
  lstrip s = [] <-> forallb isspace s = true.
Proof.
  induction s as [| c s IH]; simpl; [done |].
  destruct (isspace c); simpl; [exact IH |]. split; discriminate.
Qed.

Lemma rstrip_cons (c : codepoint) (r : pystr) :
  isspace c = false -> rstrip (c :: r) = c :: rstrip r.
Proof.
  intros Hc. unfold rstrip. simpl rev.
  by rewrite (lstrip_snoc _ _ Hc), rev_app_distr.
Qed.

(** What [strip] returns is empty or starts with a character that is not
    a space, and [strip] leaves it as it is. *)
Lemma strip_cases (s : pystr) :
  (strip s = [] /\ lstrip s = [])
  \/ exists c r, lstrip s = c :: r /\ isspace c = false
                 /\ strip s = c :: rstrip r.
Proof.
  unfold strip. destruct (lstrip_cases s) as [-> | (c & r & -> & Hc)].
  - by left.
  - right. exists c, r. by rewrite rstrip_cons.
Qed.

Lemma rstrip_idem (s : pystr) : rstrip (rstrip s) = rstrip s.
Proof.
  unfold rstrip. rewrite rev_involutive. f_equal.
  destruct (lstrip_cases (rev s)) as [-> | (c & r & -> & Hc)]; [done |].
  by apply lstrip_keeps.
Qed.

Lemma strip_idem (s : pystr) : strip (strip s) = strip s.
Proof.
  destruct (strip_cases s) as [[-> _] | (c & r & _ & Hc & ->)]; [done |].
  unfold strip. rewrite (lstrip_keeps _ _ Hc), (rstrip_cons _ _ Hc).
  by rewrite rstrip_idem.
Qed.

Lemma strip_nil_iff (s : pystr) :
  strip s = [] <-> forallb isspace s = true.
Proof.
  rewrite <- lstrip_nil_iff.
  destruct (strip_cases s) as [[-> ->] | (c & r & -> & _ & ->)]; [done |].
  split; discriminate.
Qed.

(** ** What a chat request asks to send *)

Lemma chat_message_valid (req : request) (u : pystr) :
  chat_message req = Some u ->
  exists d m, request_data req = PDict d
              /\ items_get d (lit "message") = Some (PStr m)
              /\ strip m = u /\ strip m <> [].
Proof.
  unfold chat_message.
  destruct (request_data req) as [| b | z | f | t | l | d]; try discriminate.
  destruct (items_get d (lit "message")) as [[| b | z | f | m | l | d'] |]
    eqn:Hmsg; try discriminate.
  destruct (strip m) as [| c r] eqn:Hm; [discriminate |].
  intros [= <-]. exists d, m. by rewrite Hm.
Qed.

Lemma chat_message_of (req : request) (d : list (pystr * pyvalue)) (m : pystr) :
  request_data req = PDict d ->
  items_get d (lit "message") = Some (PStr m) ->
  strip m <> [] ->
  chat_message req = Some (strip m).
Proof.
  intros Hd Hmsg Hm. unfold chat_message. rewrite Hd, Hmsg.
  by destruct (strip m).
Qed.

(** ** The shape of a history *)

Lemma dialogue_user (after_user : bool) (h : list Turn) (c : codepoint)
    (u : pystr) :
  strip (c :: u) = c :: u ->
  dialogue after_user (h ++ [user_turn (c :: u)]) = dialogue after_user h.
Proof.
  intros Hstrip. revert after_user.
  induction h as [| t h IH]; intros after_user.
  - simpl. by rewrite bool_decide_eq_true_2.
  - simpl. repeat case_bool_decide; try done.
    + destruct (content t) as [[| c' u'] |]; try done. by rewrite IH.
    + by rewrite IH.
Qed.

Lemma dialogue_exchange (after_user : bool) (h : list Turn) (c : codepoint)
    (u : pystr) (reply : option pystr) :
  strip (c :: u) = c :: u ->
  dialogue after_user (h ++ [user_turn (c :: u); assistant_turn reply])
  = dialogue after_user h.
Proof.
  intros Hstrip. revert after_user.
  induction h as [| t h IH]; intros after_user.
  - simpl. by rewrite bool_decide_eq_true_2.
  - simpl. repeat case_bool_decide; try done.
    + destruct (content t) as [[| c' u'] |]; try done. by rewrite IH.
    + by rewrite IH.
Qed.

Lemma well_formed_user (h : list Turn) (c : codepoint) (u : pystr) :
  strip (c :: u) = c :: u ->
  well_formed h = true -> well_formed (h ++ [user_turn (c :: u)]) = true.
Proof.
  intros Hstrip. destruct h as [| t h]; [done |]. simpl.
  by rewrite dialogue_user.
Qed.

Lemma well_formed_exchange (h : list Turn) (c : codepoint) (u : pystr)
    (reply : option pystr) :
  strip (c :: u) = c :: u ->
  well_formed h = true ->
  well_formed (h ++ [user_turn (c :: u); assistant_turn reply]) = true.
Proof.
  intros Hstrip. destruct h as [| t h]; [done |]. simpl.
  by rewrite dialogue_exchange.
Qed.

(** ** The history helpers, composed *)

(** X18. A second [get_history] returns what the first returned and leaves
    the session as the first left it. *)
Theorem get_history_idempotent (s : session) :
  exists h s1,
    get_history s = Done (Ok h, s1)
    /\ get_history s1 = Done (Ok h, s1)
    /\ (get_history ≫= fun _ => get_history) s = get_history s.
Proof.
  exists (stored_history s), (<[lit "history" := stored_history s]> s).
  assert (Hagain : get_history (<[lit "history" := stored_history s]> s)
                   = Done (Ok (stored_history s),
                           <[lit "history" := stored_history s]> s)).
  { apply get_history_present, lookup_insert_eq. }
  repeat split.
  - apply get_history_stored.
  - exact Hagain.
  - rewrite bind_get_history, Hagain. symmetry. apply get_history_stored.
Qed.

(** X19. A turn added is the last turn read back, after the turns that
    were there, and reading does not change the session again. *)
Theorem add_message_read_back (role : pystr) (content : option pystr)
    (s : session) :
  exists s1,
    add_message role content s = Done (Ok tt, s1)
    /\ get_history s1
       = Done (Ok (stored_history s ++ [mkTurn role content]), s1)
    /\ last (stored_history s1) = Some (mkTurn role content).
Proof.
  exists (<[lit "history" := stored_history s ++ [mkTurn role content]]> s).
  repeat split.
  - apply add_message_stored.
  - apply get_history_present, lookup_insert_eq.
  - rewrite stored_history_insert. apply last_snoc.
Qed.

(** ** More on the handlers *)

Section Behaviour.

Variable environ : gmap pystr pystr.
Variable float_repr : spec_float -> pystr.
Variable str_repr : pystr -> pystr.
Implicit Types client : completion_request -> gateway_outcome.

(** A request without a usable message ends before the first
    [add_message]: with the 400 response or with an [AttributeError]. *)
Lemma chat_invalid (req : request) (s : session) :
  chat_message req = None ->
  chat environ str_repr req s = Done (Ok (JsonResponse 400 EMPTY_MESSAGE), s)
  \/ exists ty attr,
       chat environ str_repr req s = Done (Raise (AttributeError ty attr), s).
Proof.
  intros Hnone.
  destruct (dict_or_not (request_data req)) as [[d Hd] | Hnot];
    [| right; do 2 eexists; by apply chat_not_dict].
  destruct (items_get d (lit "message")) as [v |] eqn:Hmsg;
    [| left; apply chat_blank; exists d; auto].
  destruct v as [| b | z | f | m | l | d'];
    try (right; do 2 eexists; by apply (chat_not_str _ _ req d _ s Hd Hmsg)).
  destruct (strip m) as [| c u] eqn:Hm.
  - left. apply chat_blank. exists d. split; [done |]. right. eauto.
  - rewrite (chat_message_of req d m Hd Hmsg) in Hnone by (by rewrite Hm).
    discriminate.
Qed.

(** A request with a usable message ends as the client's answer
    decides. *)
Lemma chat_valid client (req : request) (u : pystr) (s : session) :
  chat_message req = Some u ->
  let history := stored_history s ++ [user_turn u] in
  requests client (chat environ str_repr req s) = [chat_request environ history]
  /\ run client (chat environ str_repr req s)
     = match client (chat_request environ history) with
       | Completed (reply :: _) =>
           (Ok (JsonResponse 200
                  (PDict [(lit "ok", PBool true);
                          (lit "reply", text_value reply)])),
            <[lit "history" := history ++ [assistant_turn reply]]> s)
       | Completed [] =>
           (Ok (JsonResponse 500
                  (PDict [(lit "ok", PBool false);
                          (lit "error", PStr (lit "list index out of range"))])),
            <[lit "history" := history]> s)
       | Failed msg =>
           (Ok (JsonResponse 500
                  (PDict [(lit "ok", PBool false); (lit "error", PStr msg)])),
            <[lit "history" := history]> s)
       end.
Proof.
  intros (d & m & Hd & Hmsg & <- & Hm)%chat_message_valid history. split.
  - apply (chat_valid_requests _ _ client req d m s Hd Hmsg Hm).
  - apply (chat_valid_run _ _ client req d m s Hd Hmsg Hm).
Qed.

(** *** Input that is not a message *)

(** X1. For a string [message], the 400 response is given exactly when
    every character of it is white space. *)
Theorem chat_whitespace_message client (req : request)
    (d : list (pystr * pyvalue)) (m : pystr) (s : session) :
  request_data req = PDict d ->
  items_get d (lit "message") = Some (PStr m) ->
  forallb isspace m = true
  <-> run client (chat environ str_repr req s)
      = (Ok (JsonResponse 400
               (PDict [(lit "ok", PBool false);
                       (lit "error", PStr (lit "Mensaje vacío"))])), s).
Proof.
  intros Hd Hmsg. rewrite <- strip_nil_iff. split.
  - intros Hm. rewrite chat_blank; [done |].
    exists d. split; [done |]. right. eauto.
  - intros Hrun. destruct (strip m) as [| c u] eqn:Hm; [done |].
    rewrite (chat_valid_run _ _ client req d m s Hd Hmsg) in Hrun
      by (by rewrite Hm).
    destruct (client _) as [[| reply rest] | msg]; discriminate.
Qed.

(** X2. A [message] that is not a string makes [strip] fail: the handler
    raises [AttributeError], calls no client and leaves the session. *)
Theorem chat_message_not_string client (req : request)
    (d : list (pystr * pyvalue)) (v : pyvalue) (s : session) :
  request_data req = PDict d ->
  items_get d (lit "message") = Some v ->
  (forall m, v <> PStr m) ->
  run client (chat environ str_repr req s)
  = (Raise (AttributeError (type_name v) (lit "strip")), s)
  /\ requests client (chat environ str_repr req s) = [].
Proof.
  intros Hd Hmsg Hv.
  by rewrite (chat_not_str _ _ req d v s Hd Hmsg Hv).
Qed.

(** X3. A body that is a false JSON value ([null], [false], zero, the
    empty string, list or object) counts as the empty object: 400, no call
    to the client, session unchanged. *)
Theorem chat_falsy_body_400 client (req : request) (v : pyvalue) (s : session) :
  body req = Json v ->
  truthy v = false ->
  run client (chat environ str_repr req s)
  = (Ok (JsonResponse 400
           (PDict [(lit "ok", PBool false);
                   (lit "error", PStr (lit "Mensaje vacío"))])), s)
  /\ requests client (chat environ str_repr req s) = [].
Proof.
  intros Hbody Hv.
  assert (Hempty : empty_message (request_data req)).
  { exists []. unfold request_data, get_json_silent, py_or.
    rewrite Hbody, Hv. auto. }
  by rewrite (chat_blank _ _ req s Hempty).
Qed.

(** X4. A body that is a true JSON value other than an object (a number,
    [true], a string or a list that is not empty) has no [get]: both JSON
    handlers raise [AttributeError], call no client and leave the
    session. *)
Theorem non_object_body_raises client (req : request) (v : pyvalue)
    (s : session) :
  body req = Json v ->
  truthy v = true ->
  (forall d, v <> PDict d) ->
  run client (chat environ str_repr req s)
  = (Raise (AttributeError (type_name v) (lit "get")), s)
  /\ requests client (chat environ str_repr req s) = []
  /\ run client (ai_recommendation environ float_repr str_repr req s)
     = (Raise (AttributeError (type_name v) (lit "get")), s)
  /\ requests client (ai_recommendation environ float_repr str_repr req s) = [].
Proof.
  intros Hbody Hv Hnot.
  assert (Hdata : request_data req = v).
  { unfold request_data, get_json_silent, py_or. by rewrite Hbody, Hv. }
  rewrite chat_not_dict, ai_recommendation_not_dict by (by rewrite Hdata).
  by rewrite Hdata.
Qed.

(** *** Answers of the client that carry no text *)

(** X5. A completion without choices makes [choices[0]] fail inside the
    [try]: 500 with the text of the [IndexError], and the user turn stays
    in the history. *)
Theorem chat_empty_choices client (req : request) (u : pystr) (s : session) :
  chat_message req = Some u ->
  client {| model := MODEL environ;
            messages := stored_history s ++ [user_turn u];
            temperature := 0.7; max_tokens := 400 |} = Completed [] ->
  run client (chat environ str_repr req s)
  = (Ok (JsonResponse 500
           (PDict [(lit "ok", PBool false);
                   (lit "error", PStr (lit "list index out of range"))])),
     <[lit "history" := stored_history s ++ [user_turn u]]> s).
Proof.
  intros Hu Hclient.
  destruct (chat_valid client req u s Hu) as [_ ->].
  unfold chat_request. by rewrite Hclient.
Qed.

(** X6. A completion whose first choice has no content is answered with
    200 and a [null] reply, and an assistant turn with content [None] is
    stored. *)
Theorem chat_null_reply client (req : request) (u : pystr)
    (more : list (option pystr)) (s : session) :
  chat_message req = Some u ->
  client {| model := MODEL environ;
            messages := stored_history s ++ [user_turn u];
            temperature := 0.7; max_tokens := 400 |}
  = Completed (None :: more) ->
  run client (chat environ str_repr req s)
  = (Ok (JsonResponse 200
           (PDict [(lit "ok", PBool true); (lit "reply", PNone)])),
     <[lit "history" := stored_history s
                        ++ [user_turn u; assistant_turn None]]> s).
Proof.
  intros Hu Hclient.
  destruct (chat_valid client req u s Hu) as [_ ->].
  unfold chat_request. rewrite Hclient. simpl. by rewrite <- app_assoc.
Qed.

(** X7. In the recommendation handler both failures happen inside the
    [try]: a completion without choices, or whose first choice has no
    content, is answered with 500 and the text of the exception. *)
Theorem ai_recommendation_no_text client (req : request)
    (d : list (pystr * pyvalue)) (s : session) :
  request_data req = PDict d ->
  let sent :=
    recommendation_request environ (built_prompt float_repr str_repr d) in
  (client sent = Completed [] ->
   run client (ai_recommendation environ float_repr str_repr req s)
   = (Ok (JsonResponse 500
            (PDict [(lit "error", PStr (lit "list index out of range"))])),
      s))
  /\ (forall more,
      client sent = Completed (None :: more) ->
      run client (ai_recommendation environ float_repr str_repr req s)
      = (Ok (JsonResponse 500
               (PDict [(lit "error",
                        PStr (lit "'NoneType' object has no attribute 'strip'"))])),
         s)).
Proof.
  intros Hd sent. split.
  - intros Hclient. rewrite (ai_recommendation_run _ _ _ client req d s Hd).
    fold sent. by rewrite Hclient.
  - intros more Hclient.
    rewrite (ai_recommendation_run _ _ _ client req d s Hd).
    fold sent. by rewrite Hclient.
Qed.

(** *** What reaches the client *)

(** X8. The chat handler calls the client once when the request carries a
    usable message, with the history and that message as the last turn,
    and not at all otherwise. *)
Theorem chat_calls_client_iff_valid client (req : request) (s : session) :
  requests client (chat environ str_repr req s)
  = match chat_message req with
    | Some u =>
        [{| model := MODEL environ;
            messages := stored_history s ++ [user_turn u];
            temperature := 0.7; max_tokens := 400 |}]
    | None => []
    end.
Proof.
  destruct (chat_message req) as [u |] eqn:Hu.
  - by destruct (chat_valid client req u s Hu) as [-> _].
  - by destruct (chat_invalid req s Hu) as [-> | (ty & attr & ->)].
Qed.

(** X14. In a session of the application, what the chat handler sends
    starts with the system turn and ends with the user's message. *)
Theorem chat_request_shape client (req : request) (s : session)
    (sent : completion_request) :
  reachable environ float_repr str_repr s ->
  sent ∈ requests client (chat environ str_repr req s) ->
  exists earlier u,
    chat_message req = Some u
    /\ messages sent = system_turn :: earlier ++ [user_turn u].
Proof.
  intros [rest Hrest]%reachable_seeded%seeded_stored Hsent.
  destruct (chat_message req) as [u |] eqn:Hu.
  - destruct (chat_valid client req u s Hu) as [Hreq _].
    rewrite Hreq in Hsent. apply list_elem_of_singleton in Hsent as ->.
    exists rest, u. simpl. by rewrite Hrest.
  - destruct (chat_invalid req s Hu) as [Hrun | (ty & attr & Hrun)];
      rewrite Hrun in Hsent; by apply elem_of_nil in Hsent.
Qed.

(** X15. Where none of the seven fields has a value (absent, or [null]),
    the prompt sent reads [None] in every hole. *)
Theorem ai_recommendation_all_absent client (req : request)
    (d : list (pystr * pyvalue)) (s : session) :
  request_data req = PDict d ->
  (forall key, key ∈ RECOMMENDATION_FIELDS ->
               items_get d key = None \/ items_get d key = Some PNone) ->
  map messages
    (requests client (ai_recommendation environ float_repr str_repr req s))
  = [[system_turn;
      user_turn (lit "Para el cultivo None en None: Viabilidad None (puntuación None). Condiciones: None°C, humedad del suelo None%, precipitación None mm. ¿Qué recomendaciones puedes dar al agricultor?")]].
Proof.
  intros Hd Hnone.
  rewrite (ai_recommendation_requests _ _ _ client req d s Hd).
  assert (Hfield : forall key, key ∈ RECOMMENDATION_FIELDS ->
                     default PNone (items_get d key) = PNone).
  { intros key Hkey. by destruct (Hnone key Hkey) as [-> | ->]. }
  unfold built_prompt. cbv zeta.
  rewrite !Hfield by (apply list_elem_of_In; vm_compute; auto 10).
  assert (Hprompt :
    user_prompt float_repr str_repr PNone PNone PNone PNone PNone PNone PNone
    = lit "Para el cultivo None en None: Viabilidad None (puntuación None). Condiciones: None°C, humedad del suelo None%, precipitación None mm. ¿Qué recomendaciones puedes dar al agricultor?")
    by (vm_compute; reflexivity).
  by rewrite Hprompt.
Qed.

(** *** The session across a request *)

(** X9. The chat handler only ever appends: the history after a request
    is the history before it followed by at most two turns, and a request
    without a usable message leaves the session as it was. *)
Theorem chat_history_monotone client (req : request) (s : session) :
  exists added,
    stored_history (run client (chat environ str_repr req s)).2
    = stored_history s ++ added
    /\ (length added <= 2)%nat
    /\ (chat_message req = None ->
        (run client (chat environ str_repr req s)).2 = s).
Proof.
  destruct (chat_message req) as [u |] eqn:Hu.
  - destruct (chat_valid client req u s Hu) as [_ ->].
    destruct (client _) as [[| reply rest] | msg]; simpl;
      rewrite stored_history_insert, <- ?app_assoc;
      eexists; (split; [reflexivity |]); split; simpl; (lia || done).
  - exists []. rewrite app_nil_r.
    destruct (chat_invalid req s Hu) as [-> | (ty & attr & ->)];
      simpl; repeat split; (lia || done).
Qed.

(** A request without a usable message ends the same way in every
    session. *)
Lemma chat_invalid_uniform (req : request) :
  chat_message req = None ->
  exists res, forall s, chat environ str_repr req s = Done (res, s).
Proof.
  intros Hnone.
  destruct (dict_or_not (request_data req)) as [[d Hd] | Hnot];
    [| eexists; intros s; by apply chat_not_dict].
  destruct (items_get d (lit "message")) as [v |] eqn:Hmsg;
    [| eexists; intros s; apply chat_blank; exists d; auto].
  destruct v as [| b | z | f | m | l | d'];
    try (eexists; intros s; by apply (chat_not_str _ _ req d _ s Hd Hmsg)).
  destruct (strip m) as [| c u] eqn:Hm.
  - eexists. intros s. apply chat_blank. exists d. split; [done |].
    right. eauto.
  - rewrite (chat_message_of req d m Hd Hmsg) in Hnone by (by rewrite Hm).
    discriminate.
Qed.

(** X10. No route reads or writes a key of the session other than
    [history]: the value under any other key is the same after a request,
    and in two sessions that hold the same history the response, the
    requests to the client and the history stored afterwards are the
    same, whatever the other keys hold. *)
Theorem other_keys_untouched (r : route) client (req : request)
    (s s' : session) (key : pystr) :
  key <> lit "history" ->
  s' !! lit "history" = s !! lit "history" ->
  (run client (view environ float_repr str_repr r req s)).2 !! key = s !! key
  /\ (run client (view environ float_repr str_repr r req s')).1
     = (run client (view environ float_repr str_repr r req s)).1
  /\ requests client (view environ float_repr str_repr r req s')
     = requests client (view environ float_repr str_repr r req s)
  /\ (run client (view environ float_repr str_repr r req s')).2 !! lit "history"
     = (run client (view environ float_repr str_repr r req s)).2 !! lit "history".
Proof.
  intros Hkey Hsame.
  assert (Hstored : stored_history s' = stored_history s)
    by (unfold stored_history; by rewrite Hsame).
  destruct r; simpl view.
  - destruct (decide (args_get (args req) (lit "new") = Some (lit "1")))
      as [Hnew | Hnew].
    + rewrite !index_new by done. simpl.
      by rewrite lookup_delete_ne, !lookup_delete_eq.
    + by rewrite !index_plain.
  - destruct (chat_message req) as [u |] eqn:Hu.
    + destruct (chat_valid client req u s Hu) as [-> ->].
      destruct (chat_valid client req u s' Hu) as [-> ->].
      rewrite Hstored.
      destruct (client _) as [[| reply rest] | msg]; simpl;
        by rewrite lookup_insert_ne, !lookup_insert_eq.
    + destruct (chat_invalid_uniform req Hu) as [res Hres].
      by rewrite !Hres.
  - destruct (dict_or_not (request_data req)) as [[d Hd] | Hnot].
    + rewrite !(ai_recommendation_run _ _ _ client req d _ Hd).
      by rewrite !(ai_recommendation_requests _ _ _ client req d _ Hd).
    + by rewrite !ai_recommendation_not_dict.
Qed.

(** X13. In every session of the application the history is well formed:
    the system turn comes first and only there, each user turn holds a
    text that is not empty and has no white space around it, and each
    assistant turn comes right after a user turn. *)
Theorem reachable_well_formed (s : session) :
  reachable environ float_repr str_repr s ->
  well_formed (stored_history s) = true.
Proof.
  induction 1 as [| r client req s Hs IH].
  - reflexivity.
  - destruct r; simpl view.
    + destruct (decide (args_get (args req) (lit "new") = Some (lit "1")))
        as [Hnew | Hnew].
      * rewrite index_new by done. simpl. unfold stored_history.
        by rewrite lookup_delete_eq.
      * by rewrite index_plain.
    + destruct (chat_message req) as [u |] eqn:Hu.
      * destruct (chat_message_valid req u Hu) as (d & m & _ & _ & Hstrip & Hm).
        assert (Hidem : strip u = u) by (rewrite <- Hstrip; apply strip_idem).
        rewrite Hstrip in Hm. destruct u as [| c u]; [done |].
        destruct (chat_valid client req (c :: u) s Hu) as [_ ->].
        destruct (client _) as [[| reply rest] | msg]; simpl;
          rewrite stored_history_insert, <- ?app_assoc.
        -- by apply well_formed_user.
        -- by apply well_formed_exchange.
        -- by apply well_formed_user.
      * by destruct (chat_invalid req s Hu) as [-> | (ty & attr & ->)].
    + by rewrite ai_recommendation_session.
Qed.

(** *** Requests in a row *)

(** X11. After a reset, an answered chat request leaves exactly the
    system turn, the user turn and the assistant turn, whatever the history
    was before. *)
Theorem reset_then_chat client (reset req : request) (u text : pystr)
    (more : list (option pystr)) (s : session) :
  args_get (args reset) (lit "new") = Some (lit "1") ->
  chat_message req = Some u ->
  client {| model := MODEL environ;
            messages := [system_turn; user_turn u];
            temperature := 0.7; max_tokens := 400 |}
  = Completed (Some text :: more) ->
  let cleared := (run client (index reset s)).2 in
  (run client (chat environ str_repr req cleared)).2 !! lit "history"
  = Some [system_turn; user_turn u; assistant_turn (Some text)].
Proof.
  intros Hnew Hu Hclient cleared.
  assert (Hcleared : stored_history cleared = [system_turn]).
  { unfold cleared. rewrite index_new by done. simpl. unfold stored_history.
    by rewrite lookup_delete_eq. }
  destruct (chat_valid client req u cleared Hu) as [_ ->].
  unfold chat_request. rewrite Hcleared. simpl app. rewrite Hclient.
  simpl. by rewrite lookup_insert_eq.
Qed.

(** X20. A failed call is not rolled back, so a retry finds the first
    message still there: after a failure and then an answer the history
    has gained both user turns and the one assistant turn, in that
    order. *)
Theorem chat_retry_after_failure client (req1 req2 : request)
    (u1 u2 error text : pystr) (more : list (option pystr)) (s : session) :
  chat_message req1 = Some u1 ->
  chat_message req2 = Some u2 ->
  client {| model := MODEL environ;
            messages := stored_history s ++ [user_turn u1];
            temperature := 0.7; max_tokens := 400 |} = Failed error ->
  client {| model := MODEL environ;
            messages := stored_history s ++ [user_turn u1; user_turn u2];
            temperature := 0.7; max_tokens := 400 |}
  = Completed (Some text :: more) ->
  stored_history (chats environ str_repr client [req1; req2] s)
  = stored_history s
    ++ [user_turn u1; user_turn u2; assistant_turn (Some text)].
Proof.
  intros Hu1 Hu2 Hfail Hok. simpl chats.
  destruct (chat_valid client req1 u1 s Hu1) as [_ ->].
  unfold chat_request. rewrite Hfail. simpl.
  destruct (chat_valid client req2 u2
              (<[lit "history" := stored_history s ++ [user_turn u1]]> s) Hu2)
    as [_ ->].
  unfold chat_request. rewrite stored_history_insert, <- app_assoc. simpl app.
  rewrite Hok. simpl. rewrite stored_history_insert, <- app_assoc. done.
Qed.

(** X12. With a client that always answers with a text, a series of chat
    requests with usable messages adds one user turn and one assistant turn
    per request, in the order of the requests, after the turns that were
    there: nothing is trimmed. *)
Theorem chats_conversation client (reqs : list request) (s : session) :
  (forall sent, exists text more, client sent = Completed (Some text :: more)) ->
  Forall (fun req => is_Some (chat_message req)) reqs ->
  exists replies,
    length replies = length reqs
    /\ stored_history (chats environ str_repr client reqs s)
       = stored_history s ++ concat (zip_with exchange reqs replies)
    /\ length (stored_history (chats environ str_repr client reqs s))
       = (length (stored_history s) + 2 * length reqs)%nat.
Proof.
  intros Hclient Hreqs. revert s.
  induction Hreqs as [| req reqs [u Hu] _ IH]; intros s.
  - exists []. simpl. rewrite app_nil_r. repeat split. lia.
  - simpl chats.
    destruct (chat_valid client req u s Hu) as [_ ->].
    destruct (Hclient (chat_request environ (stored_history s ++ [user_turn u])))
      as (text & more & ->).
    simpl.
    destruct (IH (<[lit "history" :=
                    (stored_history s ++ [user_turn u])
                    ++ [assistant_turn (Some text)]]> s))
      as (replies & Hlen & Hhist & Hcount).
    rewrite stored_history_insert in Hhist, Hcount.
    exists (text :: replies). simpl. unfold exchange at 1. rewrite Hu.
    repeat split.
    + by rewrite Hlen.
    + rewrite Hhist, <- !app_assoc. done.
    + rewrite Hcount, !length_app. simpl. lia.
Qed.

(** *** The responses *)

(** X16. The chat handler either raises [AttributeError], on a request
    without a usable message, or answers with status 200, 400 or 500 and
    a JSON object whose [ok] is true exactly for 200, followed by [reply]
    when it is true and by [error] when it is not. *)
Theorem chat_response_contract client (req : request) (s : session) :
  (exists ty attr,
     (run client (chat environ str_repr req s)).1
     = Raise (AttributeError ty attr)
     /\ chat_message req = None)
  \/ (exists status ok v,
        (run client (chat environ str_repr req s)).1
        = Ok (JsonResponse status
                (PDict [(lit "ok", PBool ok);
                        (if ok then lit "reply" else lit "error", v)]))
        /\ (status = 200 \/ status = 400 \/ status = 500)%Z
        /\ ok = (status =? 200)%Z).
Proof.
  destruct (chat_message req) as [u |] eqn:Hu.
  - right. destruct (chat_valid client req u s Hu) as [_ ->].
    destruct (client _) as [[| reply rest] | msg]; simpl.
    + exists 500%Z, false, (PStr (lit "list index out of range")). auto.
    + exists 200%Z, true, (text_value reply). auto.
    + exists 500%Z, false, (PStr msg). auto.
  - destruct (chat_invalid req s Hu) as [-> | (ty & attr & ->)].
    + right. exists 400%Z, false, (PStr (lit "Mensaje vacío")). auto.
    + left. by exists ty, attr.
Qed.

(** X17. The recommendation handler either raises [AttributeError], on
    a body that is not an object, or answers 200 with a [message] that has
    no white space around it, or 500 with an [error] text; it never
    answers 400. *)
Theorem ai_recommendation_response_contract client (req : request)
    (s : session) :
  (exists ty,
     (run client (ai_recommendation environ float_repr str_repr req s)).1
     = Raise (AttributeError ty (lit "get"))
     /\ forall d, request_data req <> PDict d)
  \/ (exists text,
        (run client (ai_recommendation environ float_repr str_repr req s)).1
        = Ok (JsonResponse 200 (PDict [(lit "message", PStr text)]))
        /\ strip text = text)
  \/ (exists error,
        (run client (ai_recommendation environ float_repr str_repr req s)).1
        = Ok (JsonResponse 500 (PDict [(lit "error", PStr error)]))).
Proof.
  destruct (dict_or_not (request_data req)) as [[d Hd] | Hnot].
  - right. rewrite (ai_recommendation_run _ _ _ client req d s Hd).
    destruct (client _) as [[| [text |] rest] | msg]; simpl.
    + right. eauto.
    + left. exists (strip text). split; [done | apply strip_idem].
    + right. eauto.
    + right. eauto.
  - left. rewrite ai_recommendation_not_dict by done. eauto.
Qed.

End Behaviour.

(** ** The further properties at the sample data *)

Lemma chat_whitespace_message_witness :
  forallb isspace [32; 0xA0; 0x2003; 10] = true
  /\ run (answering hola_reply)
       (chat sample_environ sample_str_repr spaces_request hola_session)
     = (Ok (JsonResponse 400
              (PDict [(lit "ok", PBool false);
                      (lit "error", PStr (lit "Mensaje vacío"))])),
        hola_session).
Proof.
  split; [reflexivity |].
  exact (proj1
    (chat_whitespace_message sample_environ sample_str_repr
       (answering hola_reply) spaces_request _ _ hola_session eq_refl eq_refl)
    eq_refl).
Defined.

Lemma chat_message_not_string_witness :
  request_data null_message_request = PDict [(lit "message", PNone)]
  /\ run (answering hola_reply)
       (chat sample_environ sample_str_repr null_message_request hola_session)
     = (Raise (AttributeError (lit "NoneType") (lit "strip")), hola_session).
Proof.
  split; [reflexivity |].
  apply (chat_message_not_string sample_environ sample_str_repr
           (answering hola_reply) null_message_request
           [(lit "message", PNone)] PNone hola_session);
    [reflexivity | reflexivity | discriminate].
Defined.

Lemma chat_falsy_body_400_witness :
  truthy (PInt 0) = false
  /\ run (answering hola_reply)
       (chat sample_environ sample_str_repr zero_request hola_session)
     = (Ok (JsonResponse 400
              (PDict [(lit "ok", PBool false);
                      (lit "error", PStr (lit "Mensaje vacío"))])),
        hola_session).
Proof.
  split; [reflexivity |].
  exact (proj1
    (chat_falsy_body_400 sample_environ sample_str_repr (answering hola_reply)
       zero_request (PInt 0) hola_session eq_refl eq_refl)).
Defined.

Lemma non_object_body_raises_witness :
  truthy (PList [PInt 1]) = true
  /\ run (answering hola_reply)
       (chat sample_environ sample_str_repr list_request hola_session)
     = (Raise (AttributeError (lit "list") (lit "get")), hola_session)
  /\ run (answering riegue_reply)
       (ai_recommendation sample_environ sample_float_repr sample_str_repr
          list_request hola_session)
     = (Raise (AttributeError (lit "list") (lit "get")), hola_session).
Proof.
  split; [reflexivity |]. split.
  - apply (non_object_body_raises sample_environ sample_float_repr
             sample_str_repr (answering hola_reply) list_request
             (PList [PInt 1]) hola_session);
      [reflexivity | reflexivity | discriminate].
  - apply (non_object_body_raises sample_environ sample_float_repr
             sample_str_repr (answering riegue_reply) list_request
             (PList [PInt 1]) hola_session);
      [reflexivity | reflexivity | discriminate].
Defined.

Lemma chat_empty_choices_witness :
  chat_message hola_request = Some (lit "Hola")
  /\ run (fun _ => Completed [])
       (chat sample_environ sample_str_repr hola_request ∅)
     = (Ok (JsonResponse 500
              (PDict [(lit "ok", PBool false);
                      (lit "error", PStr (lit "list index out of range"))])),
        <[lit "history" := [system_turn; user_turn (lit "Hola")]]> ∅).
Proof.
  split; [reflexivity |].
  exact (chat_empty_choices sample_environ sample_str_repr
           (fun _ => Completed []) hola_request (lit "Hola") ∅ eq_refl eq_refl).
Defined.

Lemma chat_null_reply_witness :
  chat_message hola_request = Some (lit "Hola")
  /\ run (fun _ => Completed [None])
       (chat sample_environ sample_str_repr hola_request ∅)
     = (Ok (JsonResponse 200
              (PDict [(lit "ok", PBool true); (lit "reply", PNone)])),
        <[lit "history" := [system_turn; user_turn (lit "Hola");
                            assistant_turn None]]> ∅).
Proof.
  split; [reflexivity |].
  exact (chat_null_reply sample_environ sample_str_repr
           (fun _ => Completed [None]) hola_request (lit "Hola") [] ∅
           eq_refl eq_refl).
Defined.

Lemma ai_recommendation_no_text_witness :
  request_data empty_post = PDict []
  /\ run (fun _ => Completed [])
       (ai_recommendation sample_environ sample_float_repr sample_str_repr
          empty_post hola_session)
     = (Ok (JsonResponse 500
              (PDict [(lit "error", PStr (lit "list index out of range"))])),
        hola_session).
Proof.
  split; [reflexivity |].
  exact (proj1
    (ai_recommendation_no_text sample_environ sample_float_repr sample_str_repr
       (fun _ => Completed []) empty_post [] hola_session eq_refl) eq_refl).
Defined.

Lemma chat_request_shape_witness :
  reachable sample_environ sample_float_repr sample_str_repr hola_session
  /\ exists earlier u,
       chat_message gracias_request = Some u
       /\ messages
            (chat_request sample_environ
               (stored_history hola_session ++ [user_turn (lit "Gracias")]))
          = system_turn :: earlier ++ [user_turn u].
Proof.
  assert (Hreach : reachable sample_environ sample_float_repr sample_str_repr
                     hola_session).
  { apply (reachable_request _ _ _ Chat (answering hola_reply) hola_request ∅).
    apply reachable_new. }
  split; [exact Hreach |].
  apply (chat_request_shape sample_environ sample_float_repr sample_str_repr
           (answering hola_reply) gracias_request hola_session _ Hreach).
  destruct (chat_valid sample_environ sample_str_repr (answering hola_reply)
              gracias_request (lit "Gracias") hola_session eq_refl)
    as [Hsent _].
  rewrite Hsent. constructor.
Defined.

Lemma ai_recommendation_all_absent_witness :
  request_data empty_post = PDict []
  /\ map messages
       (requests (answering riegue_reply)
          (ai_recommendation sample_environ sample_float_repr sample_str_repr
             empty_post hola_session))
     = [[system_turn;
         user_turn (lit "Para el cultivo None en None: Viabilidad None (puntuación None). Condiciones: None°C, humedad del suelo None%, precipitación None mm. ¿Qué recomendaciones puedes dar al agricultor?")]].
Proof.
  split; [reflexivity |].
  apply (ai_recommendation_all_absent sample_environ sample_float_repr
           sample_str_repr (answering riegue_reply) empty_post []
           hola_session eq_refl).
  intros key _. by left.
Defined.

Lemma other_keys_untouched_witness :
  lit "theme" <> lit "history"
  /\ (run (answering hola_reply)
        (view sample_environ sample_float_repr sample_str_repr Chat
           gracias_request hola_session)).2 !! lit "theme"
     = hola_session !! lit "theme"
  /\ (run (answering hola_reply)
        (view sample_environ sample_float_repr sample_str_repr Chat
           gracias_request (<[lit "theme" := [system_turn]]> hola_session))).1
     = (run (answering hola_reply)
          (view sample_environ sample_float_repr sample_str_repr Chat
             gracias_request hola_session)).1.
Proof.
  assert (Hkey : lit "theme" <> lit "history")
    by (intros H; vm_compute in H; discriminate H).
  split; [exact Hkey |].
  pose proof (other_keys_untouched sample_environ sample_float_repr
                sample_str_repr Chat (answering hola_reply) gracias_request
                hola_session (<[lit "theme" := [system_turn]]> hola_session)
                (lit "theme") Hkey (lookup_insert_ne _ _ _ _ Hkey))
    as (Hwrite & Hresponse & _).
  split; [exact Hwrite | exact Hresponse].
Defined.

Lemma reachable_well_formed_witness :
  reachable sample_environ sample_float_repr sample_str_repr hola_session
  /\ well_formed (stored_history hola_session) = true.
Proof.
  assert (Hreach : reachable sample_environ sample_float_repr sample_str_repr
                     hola_session).
  { apply (reachable_request _ _ _ Chat (answering hola_reply) hola_request ∅).
    apply reachable_new. }
  split; [exact Hreach |].
  exact (reachable_well_formed _ _ _ hola_session Hreach).
Defined.

Lemma reset_then_chat_witness :
  args_get (args new_request) (lit "new") = Some (lit "1")
  /\ chat_message gracias_request = Some (lit "Gracias")
  /\ (run (answering hola_reply)
        (chat sample_environ sample_str_repr gracias_request
           (run (answering hola_reply) (index new_request hola_session)).2)).2
     !! lit "history"
     = Some [system_turn; user_turn (lit "Gracias");
             assistant_turn (Some hola_reply)].
Proof.
  split; [reflexivity |]. split; [reflexivity |].
  exact (reset_then_chat sample_environ sample_str_repr (answering hola_reply)
           new_request gracias_request (lit "Gracias") hola_reply []
           hola_session eq_refl eq_refl eq_refl).
Defined.

Lemma chat_retry_after_failure_witness :
  flaky (chat_request sample_environ [system_turn; user_turn (lit "Hola")])
  = Failed (lit "Connection error.")
  /\ stored_history
       (chats sample_environ sample_str_repr flaky
          [hola_request; gracias_request] ∅)
     = [system_turn; user_turn (lit "Hola"); user_turn (lit "Gracias");
        assistant_turn (Some hola_reply)].
Proof.
  split; [reflexivity |].
  exact (chat_retry_after_failure sample_environ sample_str_repr flaky
           hola_request gracias_request (lit "Hola") (lit "Gracias")
           (lit "Connection error.") hola_reply [] ∅
           eq_refl eq_refl eq_refl eq_refl).
Defined.

Lemma chats_conversation_witness :
  Forall (fun req => is_Some (chat_message req)) [hola_request; gracias_request]
  /\ exists replies,
       length replies = 2%nat
       /\ stored_history
            (chats sample_environ sample_str_repr (answering hola_reply)
               [hola_request; gracias_request] ∅)
          = stored_history ∅
            ++ concat (zip_with exchange [hola_request; gracias_request] replies)
       /\ length
            (stored_history
               (chats sample_environ sample_str_repr (answering hola_reply)
                  [hola_request; gracias_request] ∅))
          = (length (stored_history ∅) + 2 * 2)%nat.
Proof.
  assert (Hreqs : Forall (fun req => is_Some (chat_message req))
                    [hola_request; gracias_request]).
  { repeat constructor; eexists; reflexivity. }
  split; [exact Hreqs |].
  apply (chats_conversation sample_environ sample_str_repr
           (answering hola_reply) [hola_request; gracias_request] ∅);
    [| exact Hreqs].
  intros sent. by exists hola_reply, [].
Defined.
